(** * paperoni: the Semantic Scholar scraper

    A shallow embedding of [paperoni/sources/scrapers/semantic_scholar.py]:
    the field-set catalog, the paginated listing [_list] over the remote
    service, the normalisers [_wrap_author] and [_wrap_paper], and the
    [query] entry point, followed by the properties the specification
    states about them.

    Conventions of the embedding.
    - A value decoded by [json.loads] is a [json]: [None], [bool], [int],
      [str], [list] and [dict] (JSON floats do not occur in the fields the
      scraper reads and are left out).  A [dict] keeps its entries in
      insertion order, as Python does.
    - Strings are byte strings.  [lower] is [str.lower] on ASCII text
      (the names of the external-id namespaces are ASCII); beyond ASCII
      [str.lower] follows the Unicode tables, which are not embedded, and
      what is proved of lowercasing is stated for ASCII keys.
    - A Python exception is a value of [exn]; fallible code returns a
      [result].
    - The canonical entities ([Link], [Author], [Venue], [Release], [Topic],
      [Paper]) live in [paperoni/sources/model.py], outside this file's
      source; they are records holding the arguments they are built from. *)

From Stdlib Require Import String Ascii List ZArith NArith QArith Qminmax Bool Lia.
Import ListNotations.

Set Warnings "-register-all".

Open Scope string_scope.
Open Scope Z_scope.

(* ------------------------------------------------------------------ *)
(** ** Python values and exceptions *)

Inductive json : Type :=
| JNull
| JBool (b : bool)
| JNum (n : Z)
| JStr (s : string)
| JArr (items : list json)
| JObj (fields : list (string * json)).

Inductive exn : Type :=
| QueryError (msg : json)
| KeyError (key : json)
| TypeError
| AttributeError
| IndexError
| TransportError
| JSONDecodeError.

Inductive result (A : Type) : Type :=
| Ok (a : A)
| Err (e : exn).

Arguments Ok {A} a.
Arguments Err {A} e.

Definition bind {A B : Type} (c : result A) (k : A -> result B) : result B :=
  match c with
  | Ok a => k a
  | Err e => Err e
  end.

Notation "'let*' x ':=' c 'in' k" := (bind c (fun x => k))
  (at level 10, x name, c at level 100, k at level 200).

(** [map f xs] where [f] may raise: the first exception ends the traversal. *)
Fixpoint mapM {A B : Type} (f : A -> result B) (xs : list A) : result (list B) :=
  match xs with
  | [] => Ok []
  | x :: xs' =>
      let* y := f x in
      let* ys := mapM f xs' in
      Ok (y :: ys)
  end.

(** Truth value of a Python object in a boolean context. *)
Definition truthy (v : json) : bool :=
  match v with
  | JNull => false
  | JBool b => b
  | JNum n => negb (n =? 0)
  | JStr s => negb (s =? "")%string
  | JArr items => match items with [] => false | _ :: _ => true end
  | JObj fields => match fields with [] => false | _ :: _ => true end
  end.

(** [a or b] on values. *)
Definition py_or (a b : json) : json := if truthy a then a else b.

(** Lookup in a table keyed by strings (a [dict] in insertion order). *)
Fixpoint assoc {V : Type} (k : string) (d : list (string * V)) : option V :=
  match d with
  | [] => None
  | (k', v) :: d' => if (k =? k')%string then Some v else assoc k d'
  end.

(** [d[k]] for a string key [k]. *)
Definition subscript (d : json) (k : string) : result json :=
  match d with
  | JObj fields =>
      match assoc k fields with
      | Some v => Ok v
      | None => Err (KeyError (JStr k))
      end
  | _ => Err TypeError
  end.

(** [d.get(k, default)]: only a [dict] has the method. *)
Definition py_get (d : json) (k : string) (default : json) : result json :=
  match d with
  | JObj fields =>
      match assoc k fields with
      | Some v => Ok v
      | None => Ok default
      end
  | _ => Err AttributeError
  end.

(** [d.items()]. *)
Definition py_items (d : json) : result (list (string * json)) :=
  match d with
  | JObj fields => Ok fields
  | _ => Err AttributeError
  end.

Fixpoint chars (s : string) : list json :=
  match s with
  | EmptyString => []
  | String c s' => JStr (String c EmptyString) :: chars s'
  end.

(** The elements a [for] loop (or [map], or a comprehension) draws from a
    value: the items of a list, the keys of a dict, the characters of a
    string; the other values are not iterable. *)
Definition py_iter (v : json) : result (list json) :=
  match v with
  | JArr items => Ok items
  | JObj fields => Ok (List.map (fun kv => JStr (fst kv)) fields)
  | JStr s => Ok (chars s)
  | _ => Err TypeError
  end.

(** [v[0]]: the first item of a list, the first character of a string, the
    entry under the key [0] of a dict (decoded JSON has string keys only). *)
Definition item0 (v : json) : result json :=
  match v with
  | JArr (x :: _) => Ok x
  | JArr [] => Err IndexError
  | JStr (String c _) => Ok (JStr (String c EmptyString))
  | JStr EmptyString => Err IndexError
  | JObj _ => Err (KeyError (JNum 0))
  | _ => Err TypeError
  end.

Definition lower_ascii (c : ascii) : ascii :=
  let n := N_of_ascii c in
  if ((65 <=? n) && (n <=? 90))%N then ascii_of_N (n + 32) else c.

(** [s.lower()] for an ASCII string [s]: the letters "A" to "Z" become
    "a" to "z", every other character is kept.  (On other strings
    [str.lower] also folds the cased letters beyond ASCII, which this
    function keeps as they are.) *)
Fixpoint lower (s : string) : string :=
  match s with
  | EmptyString => EmptyString
  | String c s' => String (lower_ascii c) (lower s')
  end.

(* ------------------------------------------------------------------ *)
(** ** The canonical entities (constructed by the normaliser) *)

Module VenueType.
Inductive t : Type := journal | conference | book | review | unknown.
End VenueType.

(** Only [DatePrecision.day] is named by the scraper; [year] and [unknown]
    are the members the specification gives to the year fallback. *)
Module DatePrecision.
Inductive t : Type := unknown | year | day.
End DatePrecision.

Module Link.
Record t : Type := mk { type : string; link : json }.
End Link.

Module Topic.
Record t : Type := mk { name : json }.
End Topic.

Module Author.
Record t : Type := mk {
  name : json;
  affiliations : list json;
  aliases : json;
  links : list Link.t;
  roles : list json
}.
End Author.

Module Venue.
Record t : Type := mk {
  type : VenueType.t;
  name : json;
  volume : json;
  links : list Link.t
}.
End Venue.

(** The [date] argument of a release.  [DateText s] is the string [s];
    [DateFormat v suffix] is the f-string [f"{v}{suffix}"] for a value [v]
    that is not a string, kept unevaluated; [DateOfYear y] is the
    year-only date that [assimilate_date] derives from the year [y];
    [DateNone] is [None]. *)
Inductive date_value : Type :=
| DateNone
| DateText (s : string)
| DateFormat (v : json) (suffix : string)
| DateOfYear (y : json).

Module Release.
Record t : Type := mk {
  venue : Venue.t;
  date : date_value;
  date_precision : DatePrecision.t
}.
End Release.

Module Paper.
Record t : Type := mk {
  links : list Link.t;
  authors : list Author.t;
  title : json;
  abstract : json;
  citation_count : json;
  topics : list Topic.t;
  releases : list Release.t;
  scrapers : list string
}.
End Paper.

(* ------------------------------------------------------------------ *)
(** ** The classification tables *)

Definition external_ids_mapping : list (string * string) :=
  [("pubmedcentral", "pmc")].

Definition venue_type_mapping : list (string * VenueType.t) :=
  [("JournalArticle", VenueType.journal);
   ("Conference", VenueType.conference);
   ("Book", VenueType.book);
   ("Review", VenueType.review);
   ("_", VenueType.unknown)].

(** [external_ids_mapping.get(t, t)]. *)
Definition remap_external_id (t : string) : string :=
  match assoc t external_ids_mapping with
  | Some alias => alias
  | None => t
  end.

(** [venue_type_mapping[k]]: a list or a dict is not hashable, any other
    key that the table lacks is a [KeyError]. *)
Definition venue_type_of (k : json) : result VenueType.t :=
  match k with
  | JStr s =>
      match assoc s venue_type_mapping with
      | Some vt => Ok vt
      | None => Err (KeyError k)
      end
  | JArr _ | JObj _ => Err TypeError
  | _ => Err (KeyError k)
  end.

(* ------------------------------------------------------------------ *)
(** ** The normaliser *)

(** [f"{pubd} 00:00"]. *)
Definition at_midnight (pubd : json) : date_value :=
  match pubd with
  | JStr s => DateText (s ++ " 00:00")
  | v => DateFormat v " 00:00"
  end.

(** Modelled from the spec: [DatePrecision.assimilate_date] of
    [paperoni/sources/model.py], which is not part of this file's source.
    The specification: "fall back to year-only precision derived from the
    record's year field (which may itself be absent, in which case precision
    is unknown and date is null)". *)
Definition assimilate_date (year : json) : date_value * DatePrecision.t :=
  match year with
  | JNull => (DateNone, DatePrecision.unknown)
  | y => (DateOfYear y, DatePrecision.year)
  end.

(** [lnk] is the [authorId] itself when that is empty (falsy), and the
    [Link] otherwise; an entity is a true value, as any object without a
    length is. *)
Definition _wrap_author (data : json) : result Author.t :=
  let* aid := subscript data "authorId" in
  (* lnk = aid and Link(...); links = [lnk] if lnk else [] *)
  let links :=
    if truthy aid then [Link.mk "semantic_scholar" aid] else [] in
  let* name := subscript data "name" in
  let* aliases := py_get data "aliases" JNull in
  Ok (Author.mk name [] (py_or aliases (JArr [])) links []).

(** The key looked up in [venue_type_mapping]:
    [(pubt := data.get("publicationTypes", [])) and pubt[0] or "_"]. *)
Definition venue_type_key (data : json) : result json :=
  let* pubt := py_get data "publicationTypes" (JArr []) in
  let* first := (if truthy pubt then item0 pubt else Ok pubt) in
  Ok (py_or first (JStr "_")).

(** [(j := data["journal"]) and j.get("volume", None)]. *)
Definition journal_volume (data : json) : result json :=
  let* j := subscript data "journal" in
  if truthy j then py_get j "volume" JNull else Ok j.

(** The [date] and [date_precision] of the release:
    [if pubd := data["publicationDate"]: ... else: assimilate_date(data["year"])],
    for the value [pubd] already read. *)
Definition release_date (data : json) (pubd : json)
  : result (date_value * DatePrecision.t) :=
  if truthy pubd then Ok (at_midnight pubd, DatePrecision.day)
  else let* year := subscript data "year" in Ok (assimilate_date year).

Definition external_link (entry : string * json) : Link.t :=
  let (typ, ref) := entry in
  Link.mk (remap_external_id (lower typ)) ref.

(** The value that [_wrap_paper] returns; its debugging [print] of the raw
    record is an event of the run, see [yield_paper]. *)
Definition _wrap_paper (data : json) : result Paper.t :=
  let* paperId := subscript data "paperId" in
  let* externalIds := subscript data "externalIds" in
  let* entries := py_items externalIds in
  let links :=
    Link.mk "semantic_scholar" paperId :: List.map external_link entries in
  let* raw_authors := subscript data "authors" in
  let* raw_authors := py_iter raw_authors in
  let* authors := mapM _wrap_author raw_authors in
  let* pubd := subscript data "publicationDate" in
  let* date := release_date data pubd in
  let* key := venue_type_key data in
  let* vtype := venue_type_of key in
  let* vname := subscript data "venue" in
  let* volume := journal_volume data in
  let release :=
    Release.mk (Venue.mk vtype vname volume []) (fst date) (snd date) in
  let* title := subscript data "title" in
  let* abstract := subscript data "abstract" in
  let* citation_count := subscript data "citationCount" in
  let* fos := subscript data "fieldsOfStudy" in
  let* fields := (if truthy fos then py_iter fos else Ok []) in
  Ok (Paper.mk links authors title (py_or abstract (JStr "")) citation_count
        (List.map Topic.mk fields) [release] ["ssch"%string]).

(* ------------------------------------------------------------------ *)
(** ** The field-set catalog *)

(** [fields if parent is None else tuple(f"{parent}.{field}" ...)]. *)
Definition under (parent : option string) (fields : list string) : list string :=
  match parent with
  | None => fields
  | Some p => List.map (fun field => p ++ "." ++ field) fields
  end.

Definition _paper_long_fields (parent : option string) (extras : list string)
  : list string :=
  under parent
    (["paperId"; "externalIds"; "url"; "title"; "abstract"; "venue";
      "publicationTypes"; "publicationDate"; "year"; "journal";
      "referenceCount"; "citationCount"; "influentialCitationCount";
      "isOpenAccess"; "fieldsOfStudy"] ++ extras).

Definition _paper_short_fields (parent : option string) : list string :=
  under parent ["paperId"; "url"; "title"; "venue"; "year"; "authors"].

Definition _author_fields (parent : option string) : list string :=
  under parent
    ["authorId"; "externalIds"; "url"; "name"; "aliases"; "affiliations";
     "homepage"; "paperCount"; "citationCount"].

Definition SEARCH_FIELDS : list string := _paper_long_fields None ["authors"].

Definition PAPER_FIELDS : list string :=
  _paper_long_fields None []
  ++ _author_fields (Some "authors")
  ++ _paper_short_fields (Some "citations")
  ++ _paper_short_fields (Some "references")
  ++ ["embedding"].

Definition PAPER_AUTHORS_FIELDS : list string :=
  _author_fields None ++ _paper_long_fields (Some "papers") ["authors"].

Definition PAPER_CITATIONS_FIELDS : list string :=
  ["contexts"; "intents"; "isInfluential"] ++ SEARCH_FIELDS.

Definition PAPER_REFERENCES_FIELDS : list string := PAPER_CITATIONS_FIELDS.

Definition AUTHOR_FIELDS : list string := _author_fields None.

Definition AUTHOR_PAPERS_FIELDS : list string :=
  SEARCH_FIELDS
  ++ _paper_short_fields (Some "citations")
  ++ _paper_short_fields (Some "references").

(** An omitted keyword argument takes its default. *)
Definition or_default {A : Type} (default : A) (arg : option A) : A :=
  match arg with
  | Some a => a
  | None => default
  end.

(* ------------------------------------------------------------------ *)
(** ** What a run does: its observable events *)

Inductive item : Type :=
| Raw (v : json)
| APaper (p : Paper.t)
| AnAuthor (a : Author.t).

Inductive event : Type :=
| Connect (host : string) (delay : Q)
| Request (path : string) (params : list (string * json))
| Yield (x : item)
| Print (x : item).

Inductive status : Type :=
| Running
| Done
| Raised (e : exn).

(** [SemanticScholarQueryManager.__init__]: the connection is built for
    the host, with the delay of the quota. *)
Definition request_delay : Q := (5 * 60 / 100)%Q.

Definition SemanticScholarQueryManager : event :=
  Connect "api.semanticscholar.org" request_delay.

(** ["error" in jdata]: a key of a dict, an item of a list, a substring of
    a string. *)
Fixpoint is_substring (p s : string) : bool :=
  prefix p s ||
  match s with
  | EmptyString => false
  | String _ s' => is_substring p s'
  end.

Definition is_str (k : string) (v : json) : bool :=
  match v with
  | JStr s => (s =? k)%string
  | _ => false
  end.

Definition has_key {V : Type} (k : string) (d : list (string * V)) : bool :=
  match assoc k d with
  | Some _ => true
  | None => false
  end.

Definition py_in (k : string) (v : json) : result bool :=
  match v with
  | JObj fields => Ok (has_key k fields)
  | JArr items => Ok (existsb (is_str k) items)
  | JStr s => Ok (is_substring k s)
  | _ => Err TypeError
  end.

(** [next_offset is not None and next_offset < limit]; a [bool] compares
    as the integer it is, the other values do not compare with an [int]. *)
Definition loop_test (next_offset : json) (limit : Z) : result bool :=
  match next_offset with
  | JNull => Ok false
  | JNum n => Ok (n <? limit)
  | JBool b => Ok ((if b then 1 else 0) <? limit)
  | _ => Err TypeError
  end.

(* ------------------------------------------------------------------ *)
(** ** The paginator and the operations, over a remote service *)

(** The state of a listing between two pages: the world (the remote
    service and the connection), the cursor, and what the run has done so
    far. *)
Record pager (World : Type) : Type := mkPager {
  world : World;
  next_offset : json;
  log : list event
}.

Arguments mkPager {World} world next_offset log.
Arguments world {World} p.
Arguments next_offset {World} p.
Arguments log {World} p.

(** What the consumer of a listing does with one raw entry: the events it
    causes and the exception that ends the run, if any. *)
Definition consumer : Type := json -> list event * option exn.

Fixpoint feed (consume : consumer) (entries : list json)
  : list event * option exn :=
  match entries with
  | [] => ([], None)
  | x :: rest =>
      match consume x with
      | (evs, Some e) => (evs, Some e)
      | (evs, None) =>
          let (evs', r) := feed consume rest in ((evs ++ evs')%list, r)
      end
  end.

(** [yield entry]. *)
Definition yield_raw : consumer := fun v => ([Yield (Raw v)], None).

(** [yield from map(self._wrap_paper, papers)]; [_wrap_paper] prints the
    raw record before it converts it. *)
Definition yield_paper : consumer := fun v =>
  match _wrap_paper v with
  | Ok p => ([Print (Raw v); Yield (APaper p)], None)
  | Err e => ([Print (Raw v)], Some e)
  end.

(** [yield from map(self._wrap_author, authors)]. *)
Definition yield_author : consumer := fun v =>
  match _wrap_author v with
  | Ok a => ([Yield (AnAuthor a)], None)
  | Err e => ([], Some e)
  end.

(** The [params] dict that [_list] builds:
    [{"fields": ",".join(fields), "limit": min(block_size or 10000, limit),
      **params}]. *)
Definition page_size (block_size limit : Z) : Z :=
  Z.min (if block_size =? 0 then 10000 else block_size) limit.

Definition list_params (fields : list string) (block_size limit : Z)
  (params : list (string * json)) : list (string * json) :=
  ("fields", JStr (String.concat "," fields))
  :: ("limit", JNum (page_size block_size limit))
  :: params.

Definition default_block_size : Z := 100.
Definition default_limit : Z := 10000.

Section Service.

(** [fetch w path params] is [json.loads(self.conn.get(f"{path}?{q}"))]
    for [q = urllib.parse.urlencode(params)], in the world [w]: the world
    after the request, and the decoded body or the exception of the
    transport or of the decoder. *)
Variable World : Type.
Variable fetch : World -> string -> list (string * json) -> World * result json.

Definition _evaluate (w : World) (path : string) (params : list (string * json))
  : World * result json :=
  let (w', body) := fetch w ("/graph/v1/" ++ path) params in
  (w',
   let* jdata := body in
   let* failed := py_in "error" jdata in
   if failed
   then let* msg := subscript jdata "error" in Err (QueryError msg)
   else Ok jdata).

Section Listing.

Variable consume : consumer.
Variable path : string.
Variable limit : Z.
(** The [params] dict of [_list]: [fields], [limit], then the caller's. *)
Variable params : list (string * json).

(** One turn of the [while] loop. *)
Definition page_step (p : pager World) : pager World * status :=
  match loop_test (next_offset p) limit with
  | Err e => (p, Raised e)
  | Ok false => (p, Done)
  | Ok true =>
      (* self._evaluate(path, offset=next_offset, **params) *)
      if has_key "offset" params then (p, Raised TypeError)
      else
        let kwargs := ("offset", next_offset p) :: params in
        let (w', r) := _evaluate (world p) path kwargs in
        let log' := (log p ++ [Request ("/graph/v1/" ++ path) kwargs])%list in
        match r with
        | Err e => (mkPager w' (next_offset p) log', Raised e)
        | Ok results =>
            match py_get results "next" JNull with
            | Err e => (mkPager w' (next_offset p) log', Raised e)
            | Ok next =>
                match (let* data := subscript results "data" in py_iter data) with
                | Err e => (mkPager w' next log', Raised e)
                | Ok entries =>
                    let (evs, r) := feed consume entries in
                    (mkPager w' next (log' ++ evs)%list,
                     match r with
                     | Some e => Raised e
                     | None => Running
                     end)
                end
            end
        end
  end.

(** The loop, for at most [fuel] pages; [Running] when they did not
    suffice. *)
Fixpoint pages (fuel : nat) (p : pager World) : pager World * status :=
  match fuel with
  | O => (p, Running)
  | S fuel' =>
      match page_step p with
      | (p', Running) => pages fuel' p'
      | stopped => stopped
      end
  end.

End Listing.

Definition _list (consume : consumer) (w : World) (path : string)
  (fields : list string) (block_size limit : Z)
  (params : list (string * json)) (fuel : nat) : pager World * status :=
  let params := list_params fields block_size limit params in
  pages consume path limit params fuel (mkPager w (JNum 0) []).

Definition search (w : World) (query : string) (fields : option (list string))
  (block_size limit : Z) (params : list (string * json)) (fuel : nat) :=
  _list yield_paper w "paper/search"
    (or_default SEARCH_FIELDS fields) block_size limit
    (("query", JStr query) :: params) fuel.

Definition paper_authors (w : World) (paper_id : string)
  (fields : option (list string)) (block_size limit : Z)
  (params : list (string * json)) (fuel : nat) :=
  _list yield_raw w ("paper/" ++ paper_id ++ "/authors")
    (or_default PAPER_AUTHORS_FIELDS fields) block_size limit params fuel.

Definition paper_citations (w : World) (paper_id : string)
  (fields : option (list string)) (block_size limit : Z)
  (params : list (string * json)) (fuel : nat) :=
  _list yield_raw w ("paper/" ++ paper_id ++ "/citations")
    (or_default PAPER_CITATIONS_FIELDS fields) block_size limit params fuel.

Definition paper_references (w : World) (paper_id : string)
  (fields : option (list string)) (block_size limit : Z)
  (params : list (string * json)) (fuel : nat) :=
  _list yield_raw w ("paper/" ++ paper_id ++ "/citations")
    (or_default PAPER_REFERENCES_FIELDS fields) block_size limit params fuel.

Definition author (w : World) (name : string) (fields : option (list string))
  (block_size limit : Z) (params : list (string * json)) (fuel : nat) :=
  _list yield_author w "author/search"
    (or_default AUTHOR_FIELDS fields) block_size limit
    (("query", JStr name) :: params) fuel.

Definition author_papers (w : World) (author_id : string)
  (fields : option (list string)) (block_size limit : Z)
  (params : list (string * json)) (fuel : nat) :=
  _list yield_paper w ("author/" ++ author_id ++ "/papers")
    (or_default AUTHOR_PAPERS_FIELDS fields) block_size limit params fuel.

(** [for auth in ss.author(author): print(auth)]: what the inner
    generator yields is printed. *)
Definition printed (ev : event) : event :=
  match ev with
  | Yield x => Print x
  | other => other
  end.

Definition nonempty (s : string) : bool := negb (s =? "")%string.

(** A whole run of the entry point: the world it ends in, its events in
    order, and how it ended. *)
Definition query (w : World) (author_words title_words : list string)
  (block_size limit : Z) (fuel : nat) : World * list event * status :=
  let author_term := String.concat " " author_words in
  let title_term := String.concat " " title_words in
  if nonempty author_term && nonempty title_term
  then (w, [], Raised (QueryError (JStr "Cannot query both author and title")))
  else
    let ss := SemanticScholarQueryManager in
    if nonempty title_term
    then
      let (p, st) := search w title_term None block_size limit [] fuel in
      (world p, ss :: log p, st)
    else if nonempty author_term
    then
      let (p, st) :=
        author w author_term None default_block_size default_limit [] fuel in
      (world p, ss :: List.map printed (log p), st)
    else (w, [ss], Done).

End Service.

Arguments _evaluate {World} fetch w path params.
Arguments page_step {World} fetch consume path limit params p.
Arguments pages {World} fetch consume path limit params fuel p.
Arguments _list {World} fetch consume w path fields block_size limit params fuel.
Arguments search {World} fetch w query fields block_size limit params fuel.
Arguments paper_authors {World} fetch w paper_id fields block_size limit params fuel.
Arguments paper_citations {World} fetch w paper_id fields block_size limit params fuel.
Arguments paper_references {World} fetch w paper_id fields block_size limit params fuel.
Arguments author {World} fetch w name fields block_size limit params fuel.
Arguments author_papers {World} fetch w author_id fields block_size limit params fuel.
Arguments query {World} fetch w author_words title_words block_size limit fuel.

(** What a log shows: the values yielded to the caller, and the window
    ([offset], [limit]) of each request. *)
Definition yielded (evs : list event) : list item :=
  flat_map (fun ev => match ev with Yield x => [x] | _ => [] end) evs.

Definition windows (evs : list event) : list (option json * option json) :=
  flat_map
    (fun ev =>
       match ev with
       | Request _ params => [(assoc "offset" params, assoc "limit" params)]
       | _ => []
       end) evs.

Definition requests (evs : list event) : list event :=
  filter (fun ev => match ev with Request _ _ => true | _ => false end) evs.

(** A consumer that makes no request of its own. *)
Definition quiet (consume : consumer) : Prop :=
  forall v, requests (fst (consume v)) = [].

(** A request of the listing of [path] with the parameters [params]: to
    that path, with those parameters behind an offset that passed the loop
    test against [limit]. *)
Definition in_window (path : string) (limit : Z) (params : list (string * json))
  (ev : event) : Prop :=
  exists offset,
    ev = Request ("/graph/v1/" ++ path) (("offset", offset) :: params) /\
    loop_test offset limit = Ok true.

(* ------------------------------------------------------------------ *)
(** ** Sample services and records, for the concrete runs *)

(** A service that holds the records [record 0 .. record (total-1)] and
    answers a request as the wire protocol says: at most [limit] records
    from [offset], and [next] while records remain. *)
Definition archive (record : Z -> json) (total : Z) (w : unit) (path : string)
  (params : list (string * json)) : unit * result json :=
  match assoc "offset" params, assoc "limit" params with
  | Some (JNum off), Some (JNum lim) =>
      let stop := Z.min total (off + lim) in
      let data :=
        List.map (fun i => record (off + Z.of_nat i))
                 (seq 0 (Z.to_nat (stop - off))) in
      (tt,
       Ok (JObj (("offset", JNum off)
                 :: (if stop <? total then [("next", JNum stop)] else [])
                 ++ [("data", JArr data)])%list))
  | _, _ => (tt, Ok (JObj [("error", JStr "bad request")]))
  end.

(** The same service behind a quota: the world counts the requests
    answered, and from the [quota]-th on the answer is an error body. *)
Definition throttled (quota : nat) (total : Z) (served : nat) (path : string)
  (params : list (string * json)) : nat * result json :=
  if (served <? quota)%nat
  then (S served, snd (archive JNum total tt path params))
  else (S served, Ok (JObj [("error", JStr "rate limit exceeded")])).

Definition sample_author : json :=
  JObj [("authorId", JStr "1741101"); ("name", JStr "A. Lovelace")].

Definition sample_fields : list (string * json) :=
  [("paperId", JStr "649def34f8be52c8b66281af98ae884c09aef38b");
   ("externalIds",
    JObj [("DOI", JStr "10.1000/182"); ("PubMedCentral", JStr "2323736");
          ("ArXiv", JStr "2005.00001")]);
   ("url", JStr "https://www.semanticscholar.org/paper/649def");
   ("title", JStr "Construction of the literature graph");
   ("abstract", JNull);
   ("venue", JStr "NAACL");
   ("publicationTypes", JArr [JStr "JournalArticle"; JStr "Review"]);
   ("publicationDate", JStr "2020-05-01");
   ("year", JNum 2020);
   ("journal", JObj [("name", JStr "NAACL"); ("volume", JStr "3")]);
   ("citationCount", JNum 453);
   ("fieldsOfStudy", JArr [JStr "Computer Science"]);
   ("authors", JArr [sample_author])].

(** [sample_fields] with the entries [changes] in place of its own, and
    without the keys [dropped]. *)
Definition variant (changes : list (string * json)) (dropped : list string)
  : json :=
  JObj (changes
        ++ filter (fun kv => negb (has_key (fst kv) changes)
                             && negb (existsb (String.eqb (fst kv)) dropped))
                  sample_fields)%list.

Definition sample_paper : json := variant [] [].

Definition blank_paper : Paper.t := Paper.mk [] [] JNull JNull JNull [] [] [].

(** The paper that [sample_paper] converts to. *)
Definition sample_converted : Paper.t :=
  Eval vm_compute in
    match _wrap_paper sample_paper with
    | Ok p => p
    | Err _ => blank_paper
    end.

(** A record with the publication date blank and the year null. *)
Definition undated_paper : json :=
  variant [("publicationDate", JStr ""); ("year", JNull)] [].

Definition undated_converted : Paper.t :=
  Eval vm_compute in
    match _wrap_paper undated_paper with
    | Ok p => p
    | Err _ => blank_paper
    end.

Definition sample_author_converted : Author.t :=
  Author.mk (JStr "A. Lovelace") [] (JArr [])
            [Link.mk "semantic_scholar" (JStr "1741101")] [].

(** The state of the sample listing (title query, [block_size = 2],
    [limit = 5]) after its first page, against the throttled service. *)
Definition first_page_done : pager nat :=
  Eval vm_compute in
    fst (_list (throttled 1 10) yield_raw 0%nat "paper/search" ["title"] 2 5
               [("query", JStr "graph neural networks")] 1).

(* ------------------------------------------------------------------ *)
(** ** The rate-limited connection *)

Module RateLimit.

(** Modelled from the spec: [HTTPSAcquirer] of [paperoni/sources/acquire.py],
    which is not part of this file's source.  The specification: "Before
    issuing any request beyond the first, the connection must ensure at
    least D seconds have elapsed since the previous request's issuance
    [...] the delay is enforced purely by the issuing side blocking before
    send".  Times are rational numbers of seconds. *)
Record HTTPSAcquirer : Type := mk {
  host : string;
  delay : Q;
  last_request : option Q
}.

Definition connect (host : string) (delay : Q) : HTTPSAcquirer :=
  mk host delay None.

(** Modelled from the spec: the time at which [HTTPSAcquirer.get], called
    at the time [now], issues its request: at once for the first request,
    and otherwise once the delay has elapsed since the last issuance ("the
    issuing side blocking before send"). *)
Definition issue_time (conn : HTTPSAcquirer) (now : Q) : Q :=
  match last_request conn with
  | None => now
  | Some t => Qmax now (t + delay conn)%Q
  end.

(** Modelled from the spec: [HTTPSAcquirer.get], as far as the timing of
    its request goes; the connection remembers the issuance. *)
Definition get (conn : HTTPSAcquirer) (now : Q) : HTTPSAcquirer * Q :=
  let t := issue_time conn now in
  (mk (host conn) (delay conn) (Some t), t).

(** The issuance times of the requests of successive [get]s, called at
    the times [calls]. *)
Fixpoint issuances (conn : HTTPSAcquirer) (calls : list Q) : list Q :=
  match calls with
  | [] => []
  | now :: rest =>
      let (conn', t) := get conn now in t :: issuances conn' rest
  end.

(** Successive times of a list are at least [d] apart. *)
Inductive spaced (d : Q) : list Q -> Prop :=
| spaced_nil : spaced d []
| spaced_one (t : Q) : spaced d [t]
| spaced_cons (t t' : Q) (rest : list Q) :
    (t + d <= t')%Q -> spaced d (t' :: rest) -> spaced d (t :: t' :: rest).

End RateLimit.

(* ------------------------------------------------------------------ *)
(** ** The single-paper operation *)

(** How [(paper,) = self._list(...)] ends: the one record unpacked, the
    [ValueError] of a listing that yields no record or more than one, the
    exception of the listing itself, or a listing cut short by the fuel. *)
Inductive unpacked : Type :=
| Unpacked (v : json)
| NotEnoughValues
| TooManyValues
| Propagated (e : exn)
| Unfinished.

Definition raw_items (evs : list event) : list json :=
  flat_map (fun ev => match ev with Yield (Raw v) => [v] | _ => [] end) evs.

Section SinglePaper.

Variable World : Type.
Variable fetch : World -> string -> list (string * json) -> World * result json.

(** The unpacking draws records from the listing until it has seen a
    second one, which it refuses at once: the listing is not resumed after
    the page that brings it. *)
Fixpoint unpack_one (path : string) (limit : Z) (params : list (string * json))
  (fuel : nat) (p : pager World) : pager World * unpacked :=
  match fuel with
  | O => (p, Unfinished)
  | S fuel' =>
      let (p', st) := page_step fetch yield_raw path limit params p in
      match raw_items (log p') with
      | _ :: _ :: _ => (p', TooManyValues)
      | seen =>
          match st with
          | Running => unpack_one path limit params fuel' p'
          | Raised e => (p', Propagated e)
          | Done =>
              match seen with
              | [v] => (p', Unpacked v)
              | _ => (p', NotEnoughValues)
              end
          end
      end
  end.

(** [paper(paper_id, fields)]: the world it ends in, the requests it made,
    and its result. *)
Definition paper (w : World) (paper_id : string) (fields : option (list string))
  (fuel : nat) : World * list event * unpacked :=
  let (p, r) :=
    unpack_one ("paper/" ++ paper_id) default_limit
      (list_params (or_default PAPER_FIELDS fields)
                   default_block_size default_limit [])
      fuel (mkPager w (JNum 0) []) in
  (world p, requests (log p), r).

End SinglePaper.

Arguments unpack_one {World} fetch path limit params fuel p.
Arguments paper {World} fetch w paper_id fields fuel.

(* ------------------------------------------------------------------ *)
(** ** What a remote service may be assumed to do, and more samples *)

(** The cursor of the service moves forward: the [next] of a page, when
    there is one, is an integer beyond the offset of the request. *)
Definition advancing {World : Type}
  (fetch : World -> string -> list (string * json) -> World * result json)
  : Prop :=
  forall w path params offset w' body,
    assoc "offset" params = Some (JNum offset) ->
    fetch w path params = (w', Ok (JObj body)) ->
    assoc "error" body = None ->
    assoc "next" body = None \/
    assoc "next" body = Some JNull \/
    exists next, assoc "next" body = Some (JNum next) /\ offset < next.

(** The service pages as the wire protocol says: a page holds a list of at
    most [limit] records, and its [next], when there is one, is the offset
    of the request plus the number of records of the page. *)
Definition paged {World : Type}
  (fetch : World -> string -> list (string * json) -> World * result json)
  : Prop :=
  forall w path params offset size w' body,
    assoc "offset" params = Some (JNum offset) ->
    assoc "limit" params = Some (JNum size) ->
    fetch w path params = (w', Ok (JObj body)) ->
    assoc "error" body = None ->
    exists data,
      assoc "data" body = Some (JArr data) /\
      Z.of_nat (length data) <= Z.max 0 size /\
      (assoc "next" body = None \/
       assoc "next" body = Some JNull \/
       assoc "next" body = Some (JNum (offset + Z.of_nat (length data)))).

(** A service that holds the records [0 .. total-1], refuses a request
    whose limit is not positive or whose offset is negative, and pages the
    others. *)
Definition shelf (total : Z) (w : unit) (path : string)
  (params : list (string * json)) : unit * result json :=
  match assoc "offset" params, assoc "limit" params with
  | Some (JNum off), Some (JNum lim) =>
      if (0 <? lim) && (0 <=? off)
      then
        let count := Z.to_nat (Z.min lim (Z.max 0 (total - off))) in
        let stop := off + Z.of_nat count in
        (tt,
         Ok (JObj ((if stop <? total then [("next", JNum stop)] else [])
                   ++ [("data",
                        JArr (List.map (fun i => JNum (off + Z.of_nat i))
                                       (seq 0 count)))])%list))
      else (tt, Ok (JObj [("error", JStr "bad request")]))
  | _, _ => (tt, Ok (JObj [("error", JStr "bad request")]))
  end.

(** A service that cannot be reached. *)
Definition offline (w : nat) (path : string) (params : list (string * json))
  : nat * result json :=
  (S w, Err TransportError).

(** No string occurs twice in the list. *)
Fixpoint distinct (l : list string) : bool :=
  match l with
  | [] => true
  | x :: l' => negb (existsb (String.eqb x) l') && distinct l'
  end.

(** The keys that [_wrap_paper] reads by subscript on every record. *)
Definition required_paper_keys : list string :=
  ["paperId"; "externalIds"; "authors"; "publicationDate"; "venue";
   "journal"; "title"; "abstract"; "citationCount"; "fieldsOfStudy"].

(** A raw author that [_wrap_author] accepts. *)
Definition author_record (raw : json) : Prop :=
  exists fields aid name,
    raw = JObj fields /\
    assoc "authorId" fields = Some aid /\
    assoc "name" fields = Some name.

(** A record as the remote service documents it: the keys of
    [required_paper_keys], with an object of external ids, a list of author
    records, a year beside a missing publication date, a first publication
    type that [venue_type_mapping] knows (or none), a journal that is null
    or an object, and fields of study that are null or a list. *)
Definition documented_paper (fields : list (string * json)) : Prop :=
  (exists paperId, assoc "paperId" fields = Some paperId) /\
  (exists ids, assoc "externalIds" fields = Some (JObj ids)) /\
  (exists raws, assoc "authors" fields = Some (JArr raws) /\
                Forall author_record raws) /\
  (exists pubd, assoc "publicationDate" fields = Some pubd /\
                (truthy pubd = false ->
                 exists year, assoc "year" fields = Some year)) /\
  (assoc "publicationTypes" fields = None \/
   assoc "publicationTypes" fields = Some JNull \/
   assoc "publicationTypes" fields = Some (JArr []) \/
   exists s rest,
     assoc "publicationTypes" fields = Some (JArr (JStr s :: rest)) /\
     (s = "" \/ exists vt, assoc s venue_type_mapping = Some vt)) /\
  (exists vname, assoc "venue" fields = Some vname) /\
  (assoc "journal" fields = Some JNull \/
   exists j, assoc "journal" fields = Some (JObj j)) /\
  (exists title, assoc "title" fields = Some title) /\
  (exists abstract, assoc "abstract" fields = Some abstract) /\
  (exists count, assoc "citationCount" fields = Some count) /\
  (assoc "fieldsOfStudy" fields = Some JNull \/
   exists names, assoc "fieldsOfStudy" fields = Some (JArr names)).

(** The state [p] of a listing mapped through [_wrap_paper] beside the
    state [p_raw] of the raw listing: same world, same cursor, same
    requests, and the papers yielded are the conversions of the raw records
    yielded. *)
Definition converted_log {World : Type} (p_raw p : pager World) : Prop :=
  world p = world p_raw /\
  next_offset p = next_offset p_raw /\
  requests (log p) = requests (log p_raw) /\
  exists papers,
    mapM _wrap_paper (raw_items (log p_raw)) = Ok papers /\
    yielded (log p) = List.map APaper papers.

(** A page of search results whose second record is not a paper. *)
Definition spoiled (i : Z) : json := if i =? 1 then JNum i else sample_paper.

(* ------------------------------------------------------------------ *)
(** ** Lower case, said without [lower] *)

(** The upper-case letters of ASCII, each with its lower-case letter:
    the two alphabets, letter by letter. *)
Definition upper_lower : list (ascii * ascii) :=
  combine (list_ascii_of_string "ABCDEFGHIJKLMNOPQRSTUVWXYZ")
          (list_ascii_of_string "abcdefghijklmnopqrstuvwxyz").

Fixpoint lowercase_letter_in (table : list (ascii * ascii)) (c : ascii)
  : option ascii :=
  match table with
  | [] => None
  | (upper, low) :: table' =>
      if Ascii.eqb c upper then Some low else lowercase_letter_in table' c
  end.

(** The lower-case letter of an upper-case letter of ASCII; [None] for
    any other character. *)
Definition lowercase_letter (c : ascii) : option ascii :=
  lowercase_letter_in upper_lower c.

(** [lowercased s t]: [t] is [s] with each upper-case letter of ASCII
    replaced by its lower-case letter and every other character kept;
    for an ASCII string [s] that is [s.lower()]. *)
Inductive lowercased : string -> string -> Prop :=
| lowercased_empty : lowercased EmptyString EmptyString
| lowercased_letter (c d : ascii) (s t : string) :
    lowercase_letter c = Some d -> lowercased s t ->
    lowercased (String c s) (String d t)
| lowercased_other (c : ascii) (s t : string) :
    lowercase_letter c = None -> lowercased s t ->
    lowercased (String c s) (String c t).

(** The string is ASCII text: every character is below 128. *)
Fixpoint ascii_text (s : string) : bool :=
  match s with
  | EmptyString => true
  | String c s' => (N_of_ascii c <? 128)%N && ascii_text s'
  end.

(* ------------------------------------------------------------------ *)
(** * Properties *)

(** ** Exceptions and truth values *)

Lemma bind_Ok {A B : Type} (c : result A) (k : A -> result B) (b : B) :
  bind c k = Ok b -> exists a, c = Ok a /\ k a = Ok b.
Proof.
  destruct c as [a | e]; simpl; intros H.
  - exists a. split; [reflexivity | exact H].
  - discriminate H.
Qed.

Lemma bind_Err {A B : Type} (c : result A) (k : A -> result B) (e : exn) :
  c = Err e -> bind c k = Err e.
Proof. intros ->. reflexivity. Qed.

(** Peels the successful prefix of a chain of binds in [H]. *)
Ltac unbind H :=
  repeat (cbv beta zeta in H;
          match type of H with
          | bind _ _ = Ok _ =>
              let x := fresh "x" in
              let E := fresh "E" in
              apply bind_Ok in H; destruct H as (x & E & H)
          end).

Lemma truthy_not_null (v : json) : truthy v = true -> v <> JNull.
Proof. intros H ->. discriminate H. Qed.

Lemma truthy_JStr (s : string) : truthy (JStr s) = true <-> s <> "".
Proof.
  simpl. destruct (String.eqb_spec s ""); simpl; split; intros H;
    congruence.
Qed.

Lemma py_or_truthy (a b : json) : truthy a = true -> py_or a b = a.
Proof. unfold py_or. intros ->. reflexivity. Qed.

Lemma py_or_falsy (a b : json) : truthy a = false -> py_or a b = b.
Proof. unfold py_or. intros ->. reflexivity. Qed.

Lemma py_or_not_null (a b : json) : b <> JNull -> py_or a b <> JNull.
Proof.
  unfold py_or. intros Hb. destruct (truthy a) eqn:Ha.
  - apply truthy_not_null, Ha.
  - exact Hb.
Qed.

Lemma subscript_dict (d : json) (k : string) (v : json) :
  subscript d k = Ok v -> exists fields, d = JObj fields /\ assoc k fields = Some v.
Proof.
  destruct d; simpl; try discriminate.
  destruct (assoc k fields) eqn:E; intros H; inversion H; subst.
  eexists; split; [reflexivity | exact E].
Qed.

Lemma subscript_missing (fields : list (string * json)) (k : string) :
  assoc k fields = None -> subscript (JObj fields) k = Err (KeyError (JStr k)).
Proof. simpl. intros ->. reflexivity. Qed.

(** ** The author conversion *)

Lemma _wrap_author_inv (data : json) (a : Author.t) :
  _wrap_author data = Ok a ->
  exists aid name aliases,
    subscript data "authorId" = Ok aid /\
    subscript data "name" = Ok name /\
    py_get data "aliases" JNull = Ok aliases /\
    a = Author.mk name [] (py_or aliases (JArr []))
          (if truthy aid then [Link.mk "semantic_scholar" aid] else []) [].
Proof.
  unfold _wrap_author. intros H. unbind H.
  inversion H; subst. eauto 8.
Qed.

Lemma _wrap_author_total (fields : list (string * json)) (aid name : json) :
  assoc "authorId" fields = Some aid ->
  assoc "name" fields = Some name ->
  exists a, _wrap_author (JObj fields) = Ok a.
Proof.
  intros Ha Hn. unfold _wrap_author. simpl. rewrite Ha, Hn. simpl.
  destruct (assoc "aliases" fields); simpl; eauto.
Qed.



(** ** The paper conversion *)

(** Every step of a successful conversion, in the order the code takes
    them. *)
Lemma _wrap_paper_inv (data : json) (p : Paper.t) :
  _wrap_paper data = Ok p ->
  exists paperId ids authors pubd date key vtype vname volume
         title abstract citation_count topics,
    subscript data "paperId" = Ok paperId /\
    subscript data "externalIds" = Ok (JObj ids) /\
    (let* raw := subscript data "authors" in
     let* raw := py_iter raw in mapM _wrap_author raw) = Ok authors /\
    subscript data "publicationDate" = Ok pubd /\
    release_date data pubd = Ok date /\
    venue_type_key data = Ok key /\
    venue_type_of key = Ok vtype /\
    subscript data "venue" = Ok vname /\
    journal_volume data = Ok volume /\
    subscript data "title" = Ok title /\
    subscript data "abstract" = Ok abstract /\
    subscript data "citationCount" = Ok citation_count /\
    (let* fos := subscript data "fieldsOfStudy" in
     if truthy fos then py_iter fos else Ok []) = Ok topics /\
    p = Paper.mk
          (Link.mk "semantic_scholar" paperId :: List.map external_link ids)
          authors title (py_or abstract (JStr "")) citation_count
          (List.map Topic.mk topics)
          [Release.mk (Venue.mk vtype vname volume []) (fst date) (snd date)]
          ["ssch"%string].
Proof.
  unfold _wrap_paper. intros H. unbind H.
  inversion H; subst; clear H.
  destruct x0 as [ | b | n | s | items | ids ]; try discriminate E1.
  simpl in E1. injection E1 as <-.
  exists x, ids, x4, x5, x6, x7, x8, x9, x10, x11, x12, x13, x15.
  rewrite E, E0, E2, E5, E6, E7, E8, E9, E10, E11, E12, E13, E14. simpl.
  rewrite E3. simpl. rewrite E4, E15.
  repeat split; reflexivity.
Qed.

Lemma _wrap_paper_raises_unless (data : json) (P : Prop) :
  (forall p, _wrap_paper data = Ok p -> P) ->
  ~ P -> exists e, _wrap_paper data = Err e.
Proof.
  intros Hinv HnP. destruct (_wrap_paper data) as [p | e] eqn:E.
  - exfalso. apply HnP, (Hinv p). reflexivity.
  - exists e. reflexivity.
Qed.


Example lower_PubMedCentral : lower "PubMedCentral" = "pubmedcentral".
Proof. reflexivity. Qed.

Lemma lower_ascii_spec (c : ascii) :
  lower_ascii c =
  match lowercase_letter c with
  | Some d => d
  | None => c
  end.
Proof.
  destruct c as [[|] [|] [|] [|] [|] [|] [|] [|]]; reflexivity.
Qed.

(** [lower] lowercases, and nothing else does. *)
Lemma lower_lowercased (s : string) : lowercased s (lower s).
Proof.
  induction s as [| c s IH]; simpl; [constructor |].
  rewrite lower_ascii_spec.
  destruct (lowercase_letter c) as [d |] eqn:E;
    [apply lowercased_letter | apply lowercased_other]; assumption.
Qed.

Lemma lowercased_lower (s t : string) : lowercased s t -> t = lower s.
Proof.
  induction 1 as [| c d s t Hc _ IH | c s t Hc _ IH]; simpl;
    [reflexivity | |]; rewrite lower_ascii_spec, Hc, IH; reflexivity.
Qed.



(** C6.  A converted paper has a non-empty list of links, headed by the
    link of type "semantic_scholar" to the record's [paperId]; its abstract
    is never null: it is the empty string when the upstream abstract is
    null and the upstream string when there is one, so a string for every
    abstract the wire schema allows (a string or null); it has exactly one
    release; and its scrapers are exactly ["ssch"]. *)
Theorem paper_invariant (data : json) (p : Paper.t) :
  _wrap_paper data = Ok p ->
  exists paperId upstream release,
    subscript data "paperId" = Ok paperId /\
    subscript data "abstract" = Ok upstream /\
    hd_error (Paper.links p) = Some (Link.mk "semantic_scholar" paperId) /\
    Paper.links p <> [] /\
    Paper.abstract p <> JNull /\
    (upstream = JNull -> Paper.abstract p = JStr "") /\
    (forall s, upstream = JStr s -> Paper.abstract p = JStr s) /\
    (upstream = JNull \/ (exists s, upstream = JStr s) ->
     exists s, Paper.abstract p = JStr s) /\
    Paper.releases p = [release] /\
    length (Paper.releases p) = 1%nat /\
    Paper.scrapers p = ["ssch"].
Proof.
  intros H. apply _wrap_paper_inv in H.
  destruct H as (paperId & ids & authors & pubd & date & key & vtype & vname
                 & volume & title & abstract & cc & topics & H).
  destruct H as (Hid & _ & _ & _ & _ & _ & _ & _ & _ & _ & Habs & _ & _ & ->).
  exists paperId, abstract. eexists. simpl.
  repeat split; try assumption; try reflexivity.
  - discriminate.
  - apply py_or_not_null. discriminate.
  - intros ->. reflexivity.
  - intros s ->. unfold py_or. simpl.
    destruct (String.eqb_spec s ""); simpl; congruence.
  - intros [-> | [s ->]].
    + exists "". reflexivity.
    + exists s. unfold py_or. simpl.
      destruct (String.eqb_spec s ""); simpl; congruence.
Qed.

Lemma paper_invariant_witness :
  exists paperId upstream release,
    subscript sample_paper "paperId" = Ok paperId /\
    subscript sample_paper "abstract" = Ok upstream /\
    hd_error (Paper.links sample_converted)
      = Some (Link.mk "semantic_scholar" paperId) /\
    Paper.links sample_converted <> [] /\
    Paper.abstract sample_converted <> JNull /\
    (upstream = JNull -> Paper.abstract sample_converted = JStr "") /\
    (forall s, upstream = JStr s -> Paper.abstract sample_converted = JStr s) /\
    (upstream = JNull \/ (exists s, upstream = JStr s) ->
     exists s, Paper.abstract sample_converted = JStr s) /\
    Paper.releases sample_converted = [release] /\
    length (Paper.releases sample_converted) = 1%nat /\
    Paper.scrapers sample_converted = ["ssch"].
Proof.
  apply (paper_invariant sample_paper sample_converted). reflexivity.
Defined.

(** ** The release: date and venue type *)

Lemma release_date_of (data : json) (p : Paper.t) :
  _wrap_paper data = Ok p ->
  exists pubd date release,
    subscript data "publicationDate" = Ok pubd /\
    release_date data pubd = Ok date /\
    Paper.releases p = [release] /\
    Release.date release = fst date /\
    Release.date_precision release = snd date.
Proof.
  intros H. apply _wrap_paper_inv in H.
  destruct H as (paperId & ids & authors & pubd & date & key & vtype & vname
                 & volume & title & abstract & cc & topics & H).
  destruct H as (_ & _ & _ & Hpubd & Hdate & _ & _ & _ & _ & _ & _ & _ & _ & ->).
  exists pubd, date. eexists. simpl. repeat split; assumption || reflexivity.
Qed.

(** A record whose publication date is null and which has no [year] key:
    the conversion raises [KeyError('year')], where the claim C4 promises a
    release of unknown precision with a null date. *)
Lemma no_year_key_raises :
  subscript (variant [("publicationDate", JNull)] ["year"]) "publicationDate"
    = Ok JNull /\
  subscript (variant [("publicationDate", JNull)] ["year"]) "year"
    = Err (KeyError (JStr "year")) /\
  _wrap_paper (variant [("publicationDate", JNull)] ["year"])
    = Err (KeyError (JStr "year")) /\
  ~ (exists p release,
       _wrap_paper (variant [("publicationDate", JNull)] ["year"]) = Ok p /\
       Paper.releases p = [release] /\
       Release.date release = DateNone /\
       Release.date_precision release = DatePrecision.unknown).
Proof.
  repeat split; try reflexivity.
  intros (p & release & H & _). vm_compute in H. discriminate H.
Qed.

Lemma _wrap_paper_before_date (fields : list (string * json))
  (paperId : json) (ids : list (string * json)) (authors : list Author.t) :
  assoc "paperId" fields = Some paperId ->
  assoc "externalIds" fields = Some (JObj ids) ->
  (let* raw := subscript (JObj fields) "authors" in
   let* raw := py_iter raw in mapM _wrap_author raw) = Ok authors ->
  forall e,
    (let* pubd := subscript (JObj fields) "publicationDate" in
     release_date (JObj fields) pubd) = Err e ->
    _wrap_paper (JObj fields) = Err e.
Proof.
  intros Hid Hext Hauthors e Hdate.
  apply bind_Ok in Hauthors. destruct Hauthors as (raw & Hraw & Hauthors).
  apply bind_Ok in Hauthors. destruct Hauthors as (raws & Hraws & Hauthors).
  unfold _wrap_paper.
  replace (subscript (JObj fields) "paperId") with (Ok paperId)
    by (simpl; rewrite Hid; reflexivity).
  replace (subscript (JObj fields) "externalIds") with (Ok (JObj ids))
    by (simpl; rewrite Hext; reflexivity).
  rewrite Hraw. cbn [bind py_items]. rewrite Hraws. cbn [bind].
  rewrite Hauthors. cbn [bind].
  destruct (subscript (JObj fields) "publicationDate") as [pubd | e'];
    cbn [bind] in *.
  - rewrite Hdate. reflexivity.
  - injection Hdate as ->. reflexivity.
Qed.

(** C4 (amended).  When a record is converted, its one release is dated
    from [publicationDate] when that is a non-empty string: day precision,
    and the date is that string followed by " 00:00" (midnight).  When
    [publicationDate] is null or the empty string, the release is dated by
    [assimilate_date] from the record's [year]: unknown precision and a
    null date for a null year, year precision and the year-only date
    otherwise.  A record without a [publicationDate] key, or one that
    falls back to the year and has no [year] key, is not converted: the
    call raises, and what it raises is the [KeyError] of the missing key
    when the steps before the date (the reading of [paperId], of the
    [externalIds] object and of the authors) succeed. *)
Theorem release_date_rule (data : json) :
  (forall p, _wrap_paper data = Ok p ->
     exists pubd release,
       subscript data "publicationDate" = Ok pubd /\
       Paper.releases p = [release] /\
       (forall s, pubd = JStr s -> s <> "" ->
          Release.date release = DateText (s ++ " 00:00") /\
          Release.date_precision release = DatePrecision.day) /\
       (pubd = JNull \/ pubd = JStr "" ->
          exists year,
            subscript data "year" = Ok year /\
            (year = JNull ->
               Release.date release = DateNone /\
               Release.date_precision release = DatePrecision.unknown) /\
            (year <> JNull ->
               Release.date release = DateOfYear year /\
               Release.date_precision release = DatePrecision.year))) /\
  (forall k, subscript data "publicationDate" = Err k ->
     exists e, _wrap_paper data = Err e) /\
  (forall pubd k,
     subscript data "publicationDate" = Ok pubd -> truthy pubd = false ->
     subscript data "year" = Err k ->
     exists e, _wrap_paper data = Err e) /\
  (forall fields paperId ids authors,
     data = JObj fields ->
     assoc "paperId" fields = Some paperId ->
     assoc "externalIds" fields = Some (JObj ids) ->
     (let* raw := subscript data "authors" in
      let* raw := py_iter raw in mapM _wrap_author raw) = Ok authors ->
     (assoc "publicationDate" fields = None ->
      _wrap_paper data = Err (KeyError (JStr "publicationDate"))) /\
     (forall pubd,
        assoc "publicationDate" fields = Some pubd -> truthy pubd = false ->
        assoc "year" fields = None ->
        _wrap_paper data = Err (KeyError (JStr "year")))).
Proof.
  split; [| split; [| split]].
  - intros p H. apply release_date_of in H.
    destruct H as (pubd & date & release & Hpubd & Hdate & Hrel & Hd & Hp).
    exists pubd, release. repeat split; try assumption.
    + subst pubd. unfold release_date in Hdate.
      rewrite (proj2 (truthy_JStr s) H0) in Hdate.
      inversion Hdate; subst date. exact Hd.
    + subst pubd. unfold release_date in Hdate.
      rewrite (proj2 (truthy_JStr s) H0) in Hdate.
      inversion Hdate; subst date. exact Hp.
    + intros Hfalsy.
      assert (Ht : truthy pubd = false) by (destruct Hfalsy; subst; reflexivity).
      unfold release_date in Hdate. rewrite Ht in Hdate.
      apply bind_Ok in Hdate. destruct Hdate as (year & Hyear & Hdate).
      inversion Hdate; subst date. exists year.
      rewrite Hd, Hp. repeat split; try assumption;
        destruct year; simpl; congruence.
  - intros k Hk. apply _wrap_paper_raises_unless with (P := False); [| tauto].
    intros p H. apply release_date_of in H.
    destruct H as (pubd & _ & _ & Hpubd & _). congruence.
  - intros pubd k Hpubd Ht Hyear.
    apply _wrap_paper_raises_unless with (P := False); [| tauto].
    intros p H. apply release_date_of in H.
    destruct H as (pubd' & date & _ & Hpubd' & Hdate & _).
    assert (pubd' = pubd) by congruence. subst pubd'.
    unfold release_date in Hdate. rewrite Ht, Hyear in Hdate.
    discriminate Hdate.
  - intros fields paperId ids authors -> Hid Hext Hauthors. split.
    + intros Hnone.
      apply (_wrap_paper_before_date fields paperId ids authors Hid Hext
               Hauthors).
      simpl. rewrite Hnone. reflexivity.
    + intros pubd Hpubd Ht Hyear.
      apply (_wrap_paper_before_date fields paperId ids authors Hid Hext
               Hauthors).
      simpl. rewrite Hpubd. simpl. unfold release_date. rewrite Ht.
      simpl. rewrite Hyear. reflexivity.
Qed.

Lemma release_date_rule_witness :
  (exists pubd release,
     subscript sample_paper "publicationDate" = Ok pubd /\
     Paper.releases sample_converted = [release] /\
     (forall s, pubd = JStr s -> s <> "" ->
        Release.date release = DateText (s ++ " 00:00") /\
        Release.date_precision release = DatePrecision.day) /\
     (pubd = JNull \/ pubd = JStr "" ->
        exists year,
          subscript sample_paper "year" = Ok year /\
          (year = JNull ->
             Release.date release = DateNone /\
             Release.date_precision release = DatePrecision.unknown) /\
          (year <> JNull ->
             Release.date release = DateOfYear year /\
             Release.date_precision release = DatePrecision.year))) /\
  (exists pubd release,
     subscript undated_paper "publicationDate" = Ok pubd /\
     Paper.releases undated_converted = [release] /\
     (forall s, pubd = JStr s -> s <> "" ->
        Release.date release = DateText (s ++ " 00:00") /\
        Release.date_precision release = DatePrecision.day) /\
     (pubd = JNull \/ pubd = JStr "" ->
        exists year,
          subscript undated_paper "year" = Ok year /\
          (year = JNull ->
             Release.date release = DateNone /\
             Release.date_precision release = DatePrecision.unknown) /\
          (year <> JNull ->
             Release.date release = DateOfYear year /\
             Release.date_precision release = DatePrecision.year))) /\
  _wrap_paper (variant [] ["publicationDate"])
  = Err (KeyError (JStr "publicationDate")) /\
  _wrap_paper (variant [("publicationDate", JNull)] ["year"])
  = Err (KeyError (JStr "year")).
Proof.
  split; [| split; [| split]].
  - apply (proj1 (release_date_rule sample_paper) sample_converted).
    reflexivity.
  - apply (proj1 (release_date_rule undated_paper) undated_converted).
    reflexivity.
  - let fields :=
      eval vm_compute in
        (match variant [] ["publicationDate"] with
         | JObj fields => fields
         | _ => []
         end) in
    apply (proj1 (proj2 (proj2 (proj2 (release_date_rule
                                         (variant [] ["publicationDate"]))))
                   fields (JStr "649def34f8be52c8b66281af98ae884c09aef38b")
                   [("DOI", JStr "10.1000/182");
                    ("PubMedCentral", JStr "2323736");
                    ("ArXiv", JStr "2005.00001")]
                   [sample_author_converted]
                   eq_refl eq_refl eq_refl eq_refl)).
    reflexivity.
  - let fields :=
      eval vm_compute in
        (match variant [("publicationDate", JNull)] ["year"] with
         | JObj fields => fields
         | _ => []
         end) in
    apply (proj2 (proj2 (proj2 (proj2 (release_date_rule
                                         (variant [("publicationDate", JNull)]
                                                  ["year"]))))
                   fields (JStr "649def34f8be52c8b66281af98ae884c09aef38b")
                   [("DOI", JStr "10.1000/182");
                    ("PubMedCentral", JStr "2323736");
                    ("ArXiv", JStr "2005.00001")]
                   [sample_author_converted]
                   eq_refl eq_refl eq_refl eq_refl) JNull);
      reflexivity.
Defined.

(** The spec's example: the record dated "2020-05-01". *)
Example release_of_2020_05_01 :
  List.map (fun r => (Release.date r, Release.date_precision r))
           (Paper.releases sample_converted)
  = [(DateText "2020-05-01 00:00", DatePrecision.day)].
Proof. reflexivity. Qed.

Lemma venue_type_classified (data : json) (p : Paper.t) :
  _wrap_paper data = Ok p ->
  exists key release,
    venue_type_key data = Ok key /\
    Paper.releases p = [release] /\
    venue_type_of key = Ok (Venue.type (Release.venue release)).
Proof.
  intros H. apply _wrap_paper_inv in H.
  destruct H as (paperId & ids & authors & pubd & date & key & vtype & vname
                 & volume & title & abstract & cc & topics & H).
  destruct H as (_ & _ & _ & _ & _ & Hkey & Hvt & _ & _ & _ & _ & _ & _ & ->).
  exists key. eexists. simpl. repeat split; assumption || reflexivity.
Qed.

(** The table is read as written: its four classes, and the sentinel. *)
Lemma venue_type_table :
  venue_type_of (JStr "JournalArticle") = Ok VenueType.journal /\
  venue_type_of (JStr "Conference") = Ok VenueType.conference /\
  venue_type_of (JStr "Book") = Ok VenueType.book /\
  venue_type_of (JStr "Review") = Ok VenueType.review /\
  venue_type_of (JStr "_") = Ok VenueType.unknown.
Proof. repeat split. Qed.

(** The key is the first publication type, and the sentinel when the list
    is absent, null or empty. *)
Lemma venue_type_key_first (fields : list (string * json)) (s : string)
  (rest : list json) :
  assoc "publicationTypes" fields = Some (JArr (JStr s :: rest)) ->
  s <> "" ->
  venue_type_key (JObj fields) = Ok (JStr s).
Proof.
  intros H Hs. unfold venue_type_key. simpl. rewrite H. simpl.
  rewrite py_or_truthy; [reflexivity | apply truthy_JStr, Hs].
Qed.

Lemma venue_type_key_sentinel (fields : list (string * json)) :
  assoc "publicationTypes" fields = None \/
  assoc "publicationTypes" fields = Some JNull \/
  assoc "publicationTypes" fields = Some (JArr []) ->
  venue_type_key (JObj fields) = Ok (JStr "_").
Proof.
  unfold venue_type_key. simpl.
  intros [-> | [-> | ->]]; reflexivity.
Qed.

Lemma venue_type_unknown_without_types (fields : list (string * json))
  (p : Paper.t) :
  assoc "publicationTypes" fields = None \/
  assoc "publicationTypes" fields = Some JNull \/
  assoc "publicationTypes" fields = Some (JArr []) ->
  _wrap_paper (JObj fields) = Ok p ->
  List.map (fun r => Venue.type (Release.venue r)) (Paper.releases p)
  = [VenueType.unknown].
Proof.
  intros Habsent H. apply venue_type_classified in H.
  destruct H as (key & release & Hkey & -> & Hvt).
  rewrite (venue_type_key_sentinel fields Habsent) in Hkey.
  injection Hkey as <-. simpl in Hvt. injection Hvt as Hvt.
  simpl. rewrite <- Hvt. reflexivity.
Qed.

(** A first publication type that the table lacks is looked up all the
    same, and the lookup raises: no paper is produced. *)
Lemma unmapped_publication_type_raises (fields : list (string * json))
  (s : string) (rest : list json) :
  assoc "publicationTypes" fields = Some (JArr (JStr s :: rest)) ->
  s <> "" ->
  assoc s venue_type_mapping = None ->
  exists e, _wrap_paper (JObj fields) = Err e.
Proof.
  intros Htypes Hs Hnone.
  apply _wrap_paper_raises_unless with (P := False); [| tauto].
  intros p H. apply venue_type_classified in H.
  destruct H as (key & release & Hkey & _ & Hvt).
  rewrite (venue_type_key_first fields s rest Htypes Hs) in Hkey.
  injection Hkey as <-. unfold venue_type_of in Hvt.
  rewrite Hnone in Hvt. discriminate Hvt.
Qed.

(** C2.  The record of an editorial, a publication type of the remote
    service that [venue_type_mapping] does not list: the claim promises a
    venue of type [unknown]; the conversion raises [KeyError('Editorial')]
    instead.  The same record converts once its type is one of the table,
    and once it has no type at all. *)
Theorem editorial_is_not_converted :
  assoc "Editorial" venue_type_mapping = None /\
  _wrap_paper (variant [("publicationTypes", JArr [JStr "Editorial"])] [])
    = Err (KeyError (JStr "Editorial")) /\
  (exists p, _wrap_paper (variant [("publicationTypes", JArr [JStr "Review"])] [])
             = Ok p /\
             List.map (fun r => Venue.type (Release.venue r)) (Paper.releases p)
             = [VenueType.review]) /\
  (exists p, _wrap_paper (variant [] ["publicationTypes"]) = Ok p /\
             List.map (fun r => Venue.type (Release.venue r)) (Paper.releases p)
             = [VenueType.unknown]).
Proof.
  repeat split.
  - eexists. split; [vm_compute; reflexivity | reflexivity].
  - eexists. split; [vm_compute; reflexivity | reflexivity].
Qed.

(* ------------------------------------------------------------------ *)
(** ** The paginator *)

Lemma yielded_app (evs evs' : list event) :
  yielded (evs ++ evs') = (yielded evs ++ yielded evs')%list.
Proof. unfold yielded. apply flat_map_app. Qed.

Lemma requests_app (evs evs' : list event) :
  requests (evs ++ evs') = (requests evs ++ requests evs')%list.
Proof. unfold requests. apply filter_app. Qed.

Section ListingFacts.

Variable World : Type.
Variable fetch : World -> string -> list (string * json) -> World * result json.
Variable consume : consumer.
Variable path : string.
Variable limit : Z.
Variable params : list (string * json).

(** Fuel adds up: a run of [n + m] pages is a run of [n] pages, resumed
    for [m] more when it is still going. *)
Lemma pages_add (n m : nat) (p : pager World) :
  pages fetch consume path limit params (n + m) p =
  match pages fetch consume path limit params n p with
  | (p', Running) => pages fetch consume path limit params m p'
  | stopped => stopped
  end.
Proof.
  revert p. induction n as [| n IH]; intros p; simpl.
  - reflexivity.
  - destruct (page_step fetch consume path limit params p) as [p' [| | e]];
      [apply IH | reflexivity | reflexivity].
Qed.

(** A run that has stopped stays as it is, whatever fuel is left. *)
Lemma pages_stopped (n m : nat) (p p' : pager World) (st : status) :
  pages fetch consume path limit params n p = (p', st) ->
  st <> Running ->
  pages fetch consume path limit params (n + m) p = (p', st).
Proof.
  intros H Hst. rewrite pages_add, H.
  destruct st; [congruence | reflexivity | reflexivity].
Qed.

(** The loop ends normally exactly when the cursor is null or has reached
    the limit. *)
Lemma page_step_done (p p' : pager World) :
  page_step fetch consume path limit params p = (p', Done) <->
  loop_test (next_offset p) limit = Ok false /\ p' = p.
Proof.
  unfold page_step.
  destruct (loop_test (next_offset p) limit) as [[|] | e].
  - split; [| intros [H _]; discriminate H].
    destruct (has_key "offset" params); [discriminate |].
    destruct (_evaluate fetch (world p) path _) as [w' [results | e]];
      [| discriminate].
    destruct (py_get results "next" JNull) as [next | e]; [| discriminate].
    destruct (let* data := subscript results "data" in py_iter data)
      as [entries | e]; [| discriminate].
    destruct (feed consume entries) as [evs [e |]]; discriminate.
  - split; [intros H; inversion H; auto | intros [_ ->]; reflexivity].
  - split; [discriminate | intros [H _]; discriminate H].
Qed.

(** A page whose body has an [error] entry. *)
Lemma page_step_error (p : pager World) (w' : World)
  (body : list (string * json)) (msg : json) :
  loop_test (next_offset p) limit = Ok true ->
  has_key "offset" params = false ->
  fetch (world p) ("/graph/v1/" ++ path) (("offset", next_offset p) :: params)
    = (w', Ok (JObj body)) ->
  assoc "error" body = Some msg ->
  page_step fetch consume path limit params p =
    (mkPager w' (next_offset p)
       (log p ++ [Request ("/graph/v1/" ++ path)
                          (("offset", next_offset p) :: params)]),
     Raised (QueryError msg)).
Proof.
  intros Htest Hkey Hfetch Herr. unfold page_step.
  rewrite Htest, Hkey. unfold _evaluate. rewrite Hfetch. simpl.
  unfold has_key. rewrite Herr. simpl. reflexivity.
Qed.

End ListingFacts.

(** C3.  In a listing that is still going after [n] pages, let the body of
    the next page be an object with an [error] entry.  Then the call ends
    there by raising [QueryError] with the server's message, whatever fuel
    is left: the log gains the request of that page and nothing else (no
    record of that page is yielded, no further request is made), the
    cursor keeps its value, and what was yielded before is still there. *)
Theorem error_body_ends_listing (World : Type)
  (fetch : World -> string -> list (string * json) -> World * result json)
  (consume : consumer) (w : World) (path : string) (fields : list string)
  (block_size limit : Z) (params : list (string * json))
  (n : nat) (p : pager World) (w' : World) (body : list (string * json))
  (msg : json) (fuel : nat) :
  _list fetch consume w path fields block_size limit params n = (p, Running) ->
  loop_test (next_offset p) limit = Ok true ->
  has_key "offset" params = false ->
  fetch (world p) ("/graph/v1/" ++ path)
        (("offset", next_offset p)
         :: list_params fields block_size limit params)
    = (w', Ok (JObj body)) ->
  assoc "error" body = Some msg ->
  let request :=
    Request ("/graph/v1/" ++ path)
            (("offset", next_offset p)
             :: list_params fields block_size limit params) in
  _list fetch consume w path fields block_size limit params (n + S fuel)
    = (mkPager w' (next_offset p) (log p ++ [request]),
       Raised (QueryError msg)) /\
  yielded (log p ++ [request]) = yielded (log p) /\
  requests (log p ++ [request]) = (requests (log p) ++ [request])%list.
Proof.
  intros Hrun Htest Hkey Hfetch Herr request. split; [| split].
  - unfold _list in *. rewrite pages_add, Hrun. simpl.
    rewrite (page_step_error World fetch consume path limit _ p w' body msg);
      auto.
  - rewrite yielded_app. simpl. apply app_nil_r.
  - rewrite requests_app. reflexivity.
Qed.

Lemma error_body_ends_listing_witness :
  _list (throttled 1 10) yield_raw 0%nat "paper/search" ["title"] 2 5
        [("query", JStr "graph neural networks")] (1 + 3)
    = (mkPager 2%nat (JNum 2)
         (log first_page_done
          ++ [Request "/graph/v1/paper/search"
                (("offset", JNum 2)
                 :: list_params ["title"] 2 5
                      [("query", JStr "graph neural networks")])]),
       Raised (QueryError (JStr "rate limit exceeded"))) /\
  yielded (log first_page_done
           ++ [Request "/graph/v1/paper/search"
                 (("offset", JNum 2)
                  :: list_params ["title"] 2 5
                       [("query", JStr "graph neural networks")])])
    = [Raw (JNum 0); Raw (JNum 1)].
Proof.
  destruct (error_body_ends_listing nat (throttled 1 10) yield_raw 0%nat
              "paper/search" ["title"] 2 5
              [("query", JStr "graph neural networks")]
              1 first_page_done 2%nat
              [("error", JStr "rate limit exceeded")]
              (JStr "rate limit exceeded") 2
              eq_refl eq_refl eq_refl eq_refl eq_refl) as (Hrun & _ & _).
  split; [exact Hrun | reflexivity].
Defined.

(** C7.  [paper_references] and [paper_citations] are the same function:
    both list the path "paper/{paper_id}/citations", and their default
    field sets are the same tuple. *)
Theorem references_are_citations :
  (forall (World : Type)
          (fetch : World -> string -> list (string * json) -> World * result json),
     @paper_references World fetch = @paper_citations World fetch) /\
  PAPER_REFERENCES_FIELDS = PAPER_CITATIONS_FIELDS /\
  (forall (World : Type)
          (fetch : World -> string -> list (string * json) -> World * result json)
          w paper_id fields block_size limit params fuel,
     paper_references fetch w paper_id fields block_size limit params fuel
     = _list fetch yield_raw w ("paper/" ++ paper_id ++ "/citations")
         (or_default PAPER_CITATIONS_FIELDS fields) block_size limit params fuel
     /\
     paper_citations fetch w paper_id fields block_size limit params fuel
     = _list fetch yield_raw w ("paper/" ++ paper_id ++ "/citations")
         (or_default PAPER_CITATIONS_FIELDS fields) block_size limit params fuel).
Proof.
  split; [| split].
  - intros World fetch. reflexivity.
  - reflexivity.
  - intros. split; reflexivity.
Qed.

Lemma concat_nonempty (s : string) : s <> "" -> nonempty s = true.
Proof.
  unfold nonempty. destruct (String.eqb_spec s ""); [congruence | reflexivity].
Qed.

(** C8.  When the author words and the title words both join to a
    non-empty term, [query] raises [QueryError] at once: the run has no
    event at all (the connection is not built, no request is made) and the
    world is as it was. *)
Theorem query_rejects_author_and_title (World : Type)
  (fetch : World -> string -> list (string * json) -> World * result json)
  (w : World) (author_words title_words : list string)
  (block_size limit : Z) (fuel : nat) :
  String.concat " " author_words <> "" ->
  String.concat " " title_words <> "" ->
  query fetch w author_words title_words block_size limit fuel
  = (w, [], Raised (QueryError (JStr "Cannot query both author and title"))).
Proof.
  intros Ha Ht. unfold query.
  rewrite (concat_nonempty _ Ha), (concat_nonempty _ Ht). reflexivity.
Qed.

Lemma query_rejects_author_and_title_witness :
  query (archive JNum 10) tt ["ada"; "lovelace"] ["graph"; "neural"; "networks"]
        2 5 10
  = (tt, [], Raised (QueryError (JStr "Cannot query both author and title"))).
Proof.
  apply (query_rejects_author_and_title unit (archive JNum 10) tt
           ["ada"; "lovelace"] ["graph"; "neural"; "networks"] 2 5 10);
    discriminate.
Defined.

(** *** What every request of a listing looks like *)


Lemma yield_paper_quiet : quiet yield_paper.
Proof. intros v. unfold yield_paper. destruct (_wrap_paper v); reflexivity. Qed.

Lemma yield_author_quiet : quiet yield_author.
Proof. intros v. unfold yield_author. destruct (_wrap_author v); reflexivity. Qed.

Lemma feed_quiet (consume : consumer) (entries : list json) :
  quiet consume -> requests (fst (feed consume entries)) = [].
Proof.
  intros Hq. induction entries as [| x rest IH]; simpl; [reflexivity |].
  specialize (Hq x). destruct (consume x) as [evs [e |]]; simpl in *.
  - exact Hq.
  - destruct (feed consume rest) as [evs' r]. simpl in *.
    rewrite requests_app, Hq, IH. reflexivity.
Qed.


Lemma page_size_le_block (block_size limit : Z) :
  block_size <> 0 -> page_size block_size limit <= block_size.
Proof.
  unfold page_size. intros H.
  destruct (Z.eqb_spec block_size 0); [contradiction | apply Z.le_min_l].
Qed.

Section Requests.

Variable World : Type.
Variable fetch : World -> string -> list (string * json) -> World * result json.
Variable consume : consumer.
Variable path : string.
Variable limit : Z.
Variable params : list (string * json).
Hypothesis consume_quiet : quiet consume.

Lemma page_step_requests (p p' : pager World) (st : status) :
  page_step fetch consume path limit params p = (p', st) ->
  Forall (in_window path limit params) (requests (log p)) ->
  Forall (in_window path limit params) (requests (log p')).
Proof.
  unfold page_step. intros H Hp.
  destruct (loop_test (next_offset p) limit) as [[|] | e] eqn:Htest;
    try (inversion H; subst; exact Hp).
  destruct (has_key "offset" params); [inversion H; subst; exact Hp |].
  destruct (_evaluate fetch (world p) path _) as [w' r].
  assert (Hlog : Forall (in_window path limit params)
                   (requests (log p ++ [Request ("/graph/v1/" ++ path)
                                          (("offset", next_offset p) :: params)]))).
  { rewrite requests_app. apply Forall_app. split; [exact Hp |].
    simpl. constructor; [| constructor].
    exists (next_offset p). split; [reflexivity | exact Htest]. }
  destruct r as [results | e]; [| inversion H; subst; exact Hlog].
  destruct (py_get results "next" JNull) as [next | e];
    [| inversion H; subst; exact Hlog].
  destruct (let* data := subscript results "data" in py_iter data)
    as [entries | e]; [| inversion H; subst; exact Hlog].
  pose proof (feed_quiet consume entries consume_quiet) as Hfeed.
  destruct (feed consume entries) as [evs r]. simpl in Hfeed.
  inversion H; subst. simpl.
  rewrite requests_app, Hfeed, app_nil_r. exact Hlog.
Qed.

Lemma pages_requests (fuel : nat) (p p' : pager World) (st : status) :
  pages fetch consume path limit params fuel p = (p', st) ->
  Forall (in_window path limit params) (requests (log p)) ->
  Forall (in_window path limit params) (requests (log p')).
Proof.
  revert p. induction fuel as [| fuel IH]; intros p H Hp; simpl in H.
  - inversion H; subst. exact Hp.
  - destruct (page_step fetch consume path limit params p) as [q stq] eqn:Hstep.
    pose proof (page_step_requests p q stq Hstep Hp) as Hq.
    destruct stq; [exact (IH q H Hq) | |]; inversion H; subst; exact Hq.
Qed.

End Requests.


(** C1.  The spec's own scenario, [block_size = 2] and [limit = 5], against
    a service that holds ten records and pages them as the wire protocol
    says.  The listing ends normally after three requests, each for two
    records: the third asks for two records where one remains in the
    budget, and six records are yielded, one more than [limit].  The same
    holds of the papers that [query] yields for a title. *)
Theorem listing_exceeds_limit :
  (let (p, st) :=
     _list (archive JNum 10) yield_raw tt "paper/search" SEARCH_FIELDS 2 5
           [("query", JStr "graph neural networks")] 4 in
   st = Done /\
   windows (log p)
   = [(Some (JNum 0), Some (JNum 2)); (Some (JNum 2), Some (JNum 2));
      (Some (JNum 4), Some (JNum 2))] /\
   yielded (log p)
   = [Raw (JNum 0); Raw (JNum 1); Raw (JNum 2); Raw (JNum 3); Raw (JNum 4);
      Raw (JNum 5)] /\
   Z.of_nat (length (yielded (log p))) > 5) /\
  (let '(_, evs, st) :=
     query (archive (fun _ => sample_paper) 10) tt []
           ["graph"; "neural"; "networks"] 2 5 4 in
   st = Done /\
   windows evs
   = [(Some (JNum 0), Some (JNum 2)); (Some (JNum 2), Some (JNum 2));
      (Some (JNum 4), Some (JNum 2))] /\
   yielded evs = repeat (APaper sample_converted) 6 /\
   Z.of_nat (length (yielded evs)) > 5).
Proof.
  split; vm_compute; repeat split; reflexivity.
Qed.

(* ------------------------------------------------------------------ *)
(** ** The delay between requests *)

Lemma issuances_spaced (calls : list Q) (conn : RateLimit.HTTPSAcquirer) :
  RateLimit.spaced (RateLimit.delay conn) (RateLimit.issuances conn calls) /\
  (forall t0 t rest,
     RateLimit.last_request conn = Some t0 ->
     RateLimit.issuances conn calls = t :: rest ->
     (t0 + RateLimit.delay conn <= t)%Q).
Proof.
  revert conn. induction calls as [| now calls IH]; intros conn; simpl.
  - split; [constructor | discriminate].
  - destruct (IH (RateLimit.mk (RateLimit.host conn) (RateLimit.delay conn)
                    (Some (RateLimit.issue_time conn now)))) as [Hs Hfirst].
    simpl in Hs, Hfirst. split.
    + destruct (RateLimit.issuances _ calls) as [| t' rest] eqn:E.
      * constructor.
      * constructor; [| exact Hs].
        apply (Hfirst _ t' rest eq_refl eq_refl).
    + intros t0 t rest Hlast H. injection H as <- _.
      unfold RateLimit.issue_time. rewrite Hlast. apply Q.le_max_r.
Qed.

(** C10.  The delay that [SemanticScholarQueryManager] gives its
    connection is the window over the quota, [5 * 60 / 100], which is 3
    seconds exactly; and the requests that a connection with that delay
    issues, whenever its [get] is called, are at least that delay apart. *)
Theorem request_delay_respected :
  SemanticScholarQueryManager = Connect "api.semanticscholar.org" request_delay /\
  (request_delay == 5 * 60 / 100)%Q /\
  (request_delay == 3)%Q /\
  (forall calls,
     RateLimit.spaced request_delay
       (RateLimit.issuances
          (RateLimit.connect "api.semanticscholar.org" request_delay) calls)).
Proof.
  repeat split.
  intros calls.
  apply (issuances_spaced calls
           (RateLimit.connect "api.semanticscholar.org" request_delay)).
Qed.

(** Four calls in a burst, then a late one: the requests leave at 0, 3, 6
    and 10 seconds. *)
Example issuances_of_a_burst :
  Forall2 Qeq
    (RateLimit.issuances
       (RateLimit.connect "api.semanticscholar.org" request_delay)
       [0; 0; 1; 10]%Q)
    [0; 3; 6; 10]%Q.
Proof. repeat constructor. Qed.

(* ------------------------------------------------------------------ *)
(** ** More on the paginator *)

Lemma raw_items_app (evs evs' : list event) :
  raw_items (evs ++ evs') = (raw_items evs ++ raw_items evs')%list.
Proof. unfold raw_items. apply flat_map_app. Qed.

Lemma has_key_false {V : Type} (k : string) (d : list (string * V)) :
  has_key k d = false -> assoc k d = None.
Proof. unfold has_key. destruct (assoc k d); [discriminate | reflexivity]. Qed.

Lemma feed_yield_raw (entries : list json) :
  feed yield_raw entries = (List.map (fun v => Yield (Raw v)) entries, None).
Proof.
  induction entries as [| x rest IH]; simpl; [reflexivity |].
  rewrite IH. reflexivity.
Qed.

Lemma yielded_raw (entries : list json) :
  yielded (List.map (fun v => Yield (Raw v)) entries) = List.map Raw entries.
Proof.
  unfold yielded.
  induction entries as [| x rest IH]; simpl; [reflexivity |].
  rewrite IH. reflexivity.
Qed.

Lemma requests_raw (entries : list json) :
  requests (List.map (fun v => Yield (Raw v)) entries) = [].
Proof. induction entries as [| x rest IH]; simpl; [reflexivity | exact IH]. Qed.

Section PageFacts.

Variable World : Type.
Variable fetch : World -> string -> list (string * json) -> World * result json.
Variable consume : consumer.
Variable path : string.
Variable limit : Z.
Variable params : list (string * json).

Lemma _evaluate_Ok (w w' : World) (kwargs : list (string * json))
  (results : json) :
  _evaluate fetch w path kwargs = (w', Ok results) ->
  fetch w ("/graph/v1/" ++ path) kwargs = (w', Ok results) /\
  py_in "error" results = Ok false.
Proof.
  unfold _evaluate.
  destruct (fetch w ("/graph/v1/" ++ path) kwargs) as [w1 [jdata | e]];
    simpl; intros H; [| inversion H].
  destruct (py_in "error" jdata) as [[|] | e] eqn:Hin; simpl in H.
  - destruct (subscript jdata "error"); simpl in H; inversion H.
  - inversion H; subst. split; [reflexivity | exact Hin].
  - inversion H.
Qed.

(** The three ways a turn of the loop goes: it makes no request (the loop
    test, or the clash of an [offset] keyword); its request or the reading
    of the page fails; or the page is read and its entries are fed to the
    consumer. *)
Lemma page_step_inv (p p' : pager World) (st : status) :
  page_step fetch consume path limit params p = (p', st) ->
  let request :=
    Request ("/graph/v1/" ++ path) (("offset", next_offset p) :: params) in
  (p' = p /\ st <> Running) \/
  (exists e, log p' = (log p ++ [request])%list /\ st = Raised e /\
             loop_test (next_offset p) limit = Ok true) \/
  (exists body entries evs r,
     loop_test (next_offset p) limit = Ok true /\
     has_key "offset" params = false /\
     fetch (world p) ("/graph/v1/" ++ path)
           (("offset", next_offset p) :: params)
       = (world p', Ok (JObj body)) /\
     assoc "error" body = None /\
     (let* data := subscript (JObj body) "data" in py_iter data) = Ok entries /\
     feed consume entries = (evs, r) /\
     next_offset p' =
       match assoc "next" body with Some v => v | None => JNull end /\
     log p' = (log p ++ [request] ++ evs)%list /\
     st = match r with Some e => Raised e | None => Running end).
Proof.
  intros H request. unfold page_step in H.
  destruct (loop_test (next_offset p) limit) as [[|] | e] eqn:Htest;
    try (left; inversion H; subst; split; [reflexivity | discriminate]).
  destruct (has_key "offset" params) eqn:Hkey;
    [left; inversion H; subst; split; [reflexivity | discriminate] |].
  destruct (_evaluate fetch (world p) path _) as [w' r] eqn:Heval.
  destruct r as [results | e];
    [| right; left; inversion H; subst; exists e; auto].
  apply _evaluate_Ok in Heval. destruct Heval as [Hfetch Hin].
  destruct (py_get results "next" JNull) as [next | e] eqn:Hnext;
    [| right; left; inversion H; subst; exists e; auto].
  destruct results as [ | b | n | s | items | body ]; try discriminate Hnext.
  simpl in Hin. injection Hin as Hin. apply has_key_false in Hin.
  destruct (let* data := subscript (JObj body) "data" in py_iter data)
    as [entries | e] eqn:Hdata;
    [| right; left; inversion H; subst; exists e; auto].
  destruct (feed consume entries) as [evs r] eqn:Hfeed.
  right; right. exists body, entries, evs, r.
  inversion H; subst; simpl. clear H.
  simpl in Hnext. repeat split; auto.
  - destruct (assoc "next" body); inversion Hnext; reflexivity.
  - rewrite <- app_assoc. reflexivity.
Qed.

(** The log only grows. *)
Lemma page_step_log (p p' : pager World) (st : status) :
  page_step fetch consume path limit params p = (p', st) ->
  exists evs, log p' = (log p ++ evs)%list.
Proof.
  intros H. apply page_step_inv in H.
  destruct H as [[-> _] | [(e & Hlog & _) | H]].
  - exists []. symmetry. apply app_nil_r.
  - eexists. exact Hlog.
  - destruct H as (body & entries & evs & r & _ & _ & _ & _ & _ & _ & _ & Hlog & _).
    eexists. exact Hlog.
Qed.

Lemma pages_log (fuel : nat) (p p' : pager World) (st : status) :
  pages fetch consume path limit params fuel p = (p', st) ->
  exists evs, log p' = (log p ++ evs)%list.
Proof.
  revert p. induction fuel as [| fuel IH]; intros p H; simpl in H.
  - inversion H; subst. exists []. symmetry. apply app_nil_r.
  - destruct (page_step fetch consume path limit params p) as [q stq] eqn:Hstep.
    apply page_step_log in Hstep. destruct Hstep as (evs & Hq).
    destruct stq; try (inversion H; subst; exists evs; exact Hq).
    apply IH in H. destruct H as (evs' & H).
    exists (evs ++ evs')%list. rewrite H, Hq. symmetry. apply app_assoc.
Qed.

(** A property of events that the requests of the listing and the events
    of the consumer have holds of the whole log. *)
Lemma pages_events (Q : event -> Prop) (fuel : nat) (p p' : pager World)
  (st : status) :
  (forall offset,
     loop_test offset limit = Ok true ->
     Q (Request ("/graph/v1/" ++ path) (("offset", offset) :: params))) ->
  (forall v, Forall Q (fst (consume v))) ->
  pages fetch consume path limit params fuel p = (p', st) ->
  Forall Q (log p) -> Forall Q (log p').
Proof.
  intros Hreq Hcons. revert p.
  assert (Hfeed : forall entries, Forall Q (fst (feed consume entries))).
  { induction entries as [| x rest IH]; simpl; [constructor |].
    specialize (Hcons x). destruct (consume x) as [evs [e |]]; simpl in *.
    - exact Hcons.
    - destruct (feed consume rest) as [evs' r]. simpl in *.
      apply Forall_app. split; assumption. }
  induction fuel as [| fuel IH]; intros p H Hp; simpl in H.
  - inversion H; subst. exact Hp.
  - destruct (page_step fetch consume path limit params p) as [q stq] eqn:Hstep.
    assert (Hq : Forall Q (log q)).
    { apply page_step_inv in Hstep.
      destruct Hstep as [[-> _] | [(e & Hlog & _ & Htest) | Hstep]].
      - exact Hp.
      - rewrite Hlog. apply Forall_app. split; [exact Hp |].
        constructor; [apply Hreq, Htest | constructor].
      - destruct Hstep as (body & entries & evs & r & Htest & _ & _ & _ & _
                           & Hfd & _ & Hlog & _).
        rewrite Hlog. apply Forall_app. split; [exact Hp |].
        apply Forall_app. split.
        + constructor; [apply Hreq, Htest | constructor].
        + specialize (Hfeed entries). rewrite Hfd in Hfeed. exact Hfeed. }
    destruct stq; [exact (IH q H Hq) | |]; inversion H; subst; exact Hq.
Qed.

End PageFacts.

Lemma shelf_paged (total : Z) : paged (shelf total).
Proof.
  intros w path params offset size w' body Hoff Hlim Hfetch Herr.
  unfold shelf in Hfetch. rewrite Hoff, Hlim in Hfetch.
  destruct ((0 <? size) && (0 <=? offset)) eqn:Hok.
  - set (count := Z.to_nat (Z.min size (Z.max 0 (total - offset)))) in *.
    exists (List.map (fun i => JNum (offset + Z.of_nat i)) (seq 0 count)).
    rewrite length_map, length_seq.
    destruct (offset + Z.of_nat count <? total);
      inversion Hfetch; subst; simpl; repeat split; auto; subst count; lia.
  - inversion Hfetch; subst. discriminate Herr.
Qed.

Lemma shelf_advancing (total : Z) : advancing (shelf total).
Proof.
  intros w path params offset w' body Hoff Hfetch Herr.
  unfold shelf in Hfetch. rewrite Hoff in Hfetch.
  destruct (assoc "limit" params) as [[ | b | size | s | items | fields ] |];
    try (inversion Hfetch; subst; discriminate Herr).
  destruct ((0 <? size) && (0 <=? offset)) eqn:Hok;
    [| inversion Hfetch; subst; discriminate Herr].
  apply andb_prop in Hok. destruct Hok as [Hsize _].
  apply Z.ltb_lt in Hsize.
  set (count := Z.to_nat (Z.min size (Z.max 0 (total - offset)))) in *.
  destruct (offset + Z.of_nat count <? total) eqn:Hmore;
    inversion Hfetch; subst; simpl.
  - right; right. eexists. split; [reflexivity |].
    apply Z.ltb_lt in Hmore. subst count. lia.
  - left. reflexivity.
Qed.

Section Progress.

Variable World : Type.
Variable fetch : World -> string -> list (string * json) -> World * result json.
Variable consume : consumer.
Variable path : string.
Variable limit : Z.
Variable params : list (string * json).

Lemma pages_terminate (fuel : nat) (p : pager World) :
  advancing fetch ->
  (next_offset p = JNull /\ (0 < fuel)%nat) \/
  (exists offset, next_offset p = JNum offset /\
                  (Z.to_nat (limit - offset) < fuel)%nat) ->
  snd (pages fetch consume path limit params fuel p) <> Running.
Proof.
  intros Hadv. revert p. induction fuel as [| fuel IH]; intros p Hp.
  - destruct Hp as [[_ H] | (offset & _ & H)]; lia.
  - simpl.
    destruct (page_step fetch consume path limit params p) as [q stq] eqn:Hstep.
    apply page_step_inv in Hstep.
    destruct Hstep as [[-> Hst] | [(e & _ & -> & _) | Hstep]].
    + destruct stq; [congruence | discriminate | discriminate].
    + discriminate.
    + destruct Hstep as (body & entries & evs & r & Htest & _ & Hfetch & Herr
                         & _ & _ & Hnext & _ & ->).
      destruct r as [e |]; [discriminate |].
      destruct Hp as [[Hnull _] | (offset & Hoff & Hfuel)];
        [rewrite Hnull in Htest; discriminate Htest |].
      rewrite Hoff in Htest, Hfetch. simpl in Htest.
      injection Htest as Htest. apply Z.ltb_lt in Htest.
      apply IH.
      destruct (Hadv _ _ (("offset", JNum offset) :: params) offset _ _
                     eq_refl Hfetch Herr)
        as [Hn | [Hn | (next & Hn & Hlt)]]; rewrite Hn in Hnext.
      * left. split; [exact Hnext | lia].
      * left. split; [exact Hnext | lia].
      * right. exists next. split; [exact Hnext | lia].
Qed.

End Progress.

(** X2.  Against a service whose cursor moves forward, a listing ends
    within [limit] pages: with more fuel than that it is never cut short. *)
Theorem _list_terminates (World : Type)
  (fetch : World -> string -> list (string * json) -> World * result json)
  (consume : consumer) (w : World) (path : string) (fields : list string)
  (block_size limit : Z) (params : list (string * json)) (fuel : nat) :
  advancing fetch ->
  (Z.to_nat limit < fuel)%nat ->
  snd (_list fetch consume w path fields block_size limit params fuel)
  <> Running.
Proof.
  intros Hadv Hfuel. unfold _list.
  apply pages_terminate; [exact Hadv |].
  right. exists 0. simpl. split; [reflexivity |].
  replace (limit - 0) with limit by lia. exact Hfuel.
Qed.

Lemma _list_terminates_witness :
  snd (_list (shelf 10) yield_raw tt "paper/search" SEARCH_FIELDS 2 5
             [("query", JStr "graph neural networks")] 6)
  <> Running.
Proof.
  apply (_list_terminates unit (shelf 10) yield_raw tt "paper/search"
           SEARCH_FIELDS 2 5 [("query", JStr "graph neural networks")] 6
           (shelf_advancing 10)).
  vm_compute. lia.
Defined.

Section Budget.

Variable World : Type.
Variable fetch : World -> string -> list (string * json) -> World * result json.
Variable path : string.
Variable limit : Z.
Variable size : Z.
Variable params : list (string * json).
Hypothesis fetch_paged : paged fetch.
Hypothesis params_limit : assoc "limit" params = Some (JNum size).

(** While the listing goes on, it has yielded as many records as its
    cursor says. *)
Lemma page_step_budget (p p' : pager World) (st : status) :
  page_step fetch yield_raw path limit params p = (p', st) ->
  Z.of_nat (length (yielded (log p))) <= Z.max 0 (limit - 1 + Z.max 0 size) ->
  (next_offset p = JNull \/
   next_offset p = JNum (Z.of_nat (length (yielded (log p))))) ->
  Z.of_nat (length (yielded (log p'))) <= Z.max 0 (limit - 1 + Z.max 0 size) /\
  (st = Running ->
   next_offset p' = JNull \/
   next_offset p' = JNum (Z.of_nat (length (yielded (log p'))))).
Proof.
  intros Hstep Hcount Hcursor. apply page_step_inv in Hstep.
  destruct Hstep as [[-> Hst] | [(e & Hlog & -> & _) | Hstep]].
  - split; [exact Hcount | congruence].
  - rewrite Hlog, yielded_app. simpl. rewrite app_nil_r.
    split; [exact Hcount | discriminate].
  - destruct Hstep as (body & entries & evs & r & Htest & Hkey & Hfetch & Herr
                       & Hdata & Hfeed & Hnext & Hlog & ->).
    destruct Hcursor as [Hnull | Hcur];
      [rewrite Hnull in Htest; discriminate Htest |].
    rewrite Hcur in Htest, Hfetch. simpl in Htest.
    injection Htest as Htest. apply Z.ltb_lt in Htest.
    destruct (fetch_paged _ _ (("offset", JNum _) :: params) _ size _ _
                eq_refl params_limit Hfetch Herr)
      as (data & Hd & Hlen & Hn).
    simpl in Hdata. rewrite Hd in Hdata. simpl in Hdata.
    injection Hdata as <-.
    rewrite feed_yield_raw in Hfeed. injection Hfeed as <- <-.
    rewrite Hlog, yielded_app. simpl. rewrite yielded_raw.
    rewrite length_app, length_map. split; [lia |].
    intros _. rewrite Hnext.
    destruct Hn as [-> | [-> | ->]]; auto.
    right. f_equal. lia.
Qed.

Lemma pages_budget (fuel : nat) (p p' : pager World) (st : status) :
  pages fetch yield_raw path limit params fuel p = (p', st) ->
  Z.of_nat (length (yielded (log p))) <= Z.max 0 (limit - 1 + Z.max 0 size) ->
  (next_offset p = JNull \/
   next_offset p = JNum (Z.of_nat (length (yielded (log p))))) ->
  Z.of_nat (length (yielded (log p'))) <= Z.max 0 (limit - 1 + Z.max 0 size).
Proof.
  revert p. induction fuel as [| fuel IH]; intros p H Hcount Hcursor;
    simpl in H.
  - inversion H; subst. exact Hcount.
  - destruct (page_step fetch yield_raw path limit params p) as [q stq]
      eqn:Hstep.
    destruct (page_step_budget p q stq Hstep Hcount Hcursor) as [Hq Hrun].
    destruct stq; [exact (IH q H Hq (Hrun eq_refl)) | |];
      inversion H; subst; exact Hq.
Qed.

End Budget.

(** X3.  Against a service that pages as the wire protocol says, a listing
    yields at most [limit - 1] records plus one page: the last request
    starts below [limit] and is answered by at most
    [min(block_size or 10000, limit)] records.  (No record at all when
    [limit] is not positive.) *)
Theorem _list_yield_bound (World : Type)
  (fetch : World -> string -> list (string * json) -> World * result json)
  (w : World) (path : string) (fields : list string)
  (block_size limit : Z) (params : list (string * json)) (fuel : nat)
  (p : pager World) (st : status) :
  paged fetch ->
  _list fetch yield_raw w path fields block_size limit params fuel = (p, st) ->
  Z.of_nat (length (yielded (log p)))
  <= Z.max 0 (limit - 1 + Z.max 0 (page_size block_size limit)).
Proof.
  intros Hpaged H. unfold _list in H.
  apply (pages_budget World fetch path limit (page_size block_size limit)
           (list_params fields block_size limit params)
           Hpaged eq_refl fuel _ p st H).
  - simpl. lia.
  - right. reflexivity.
Qed.

Lemma _list_yield_bound_witness :
  Z.of_nat
    (length
       (yielded
          (log (fst (_list (shelf 10) yield_raw tt "paper/search"
                           SEARCH_FIELDS 2 5
                           [("query", JStr "graph neural networks")] 6)))))
  <= Z.max 0 (5 - 1 + Z.max 0 (page_size 2 5)).
Proof.
  apply (_list_yield_bound unit (shelf 10) tt "paper/search" SEARCH_FIELDS
           2 5 [("query", JStr "graph neural networks")] 6 _ Done
           (shelf_paged 10)).
  reflexivity.
Defined.

(** The bound is reached: six records for [limit = 5] and pages of two. *)
Example six_records_for_limit_five :
  Z.of_nat
    (length
       (yielded
          (log (fst (_list (shelf 10) yield_raw tt "paper/search"
                           SEARCH_FIELDS 2 5
                           [("query", JStr "graph neural networks")] 6)))))
  = Z.max 0 (5 - 1 + Z.max 0 (page_size 2 5)).
Proof. reflexivity. Qed.


Section Failures.

Variable World : Type.
Variable fetch : World -> string -> list (string * json) -> World * result json.
Variable consume : consumer.
Variable path : string.
Variable limit : Z.
Variable params : list (string * json).

Lemma page_step_fetch_error (p : pager World) (w' : World) (e : exn) :
  loop_test (next_offset p) limit = Ok true ->
  has_key "offset" params = false ->
  fetch (world p) ("/graph/v1/" ++ path) (("offset", next_offset p) :: params)
    = (w', Err e) ->
  page_step fetch consume path limit params p =
    (mkPager w' (next_offset p)
       (log p ++ [Request ("/graph/v1/" ++ path)
                          (("offset", next_offset p) :: params)]),
     Raised e).
Proof.
  intros Htest Hkey Hfetch. unfold page_step.
  rewrite Htest, Hkey. unfold _evaluate. rewrite Hfetch. reflexivity.
Qed.

(** A page that is read: the state it leaves, whatever the consumer does
    with its entries. *)
Lemma page_step_read (p : pager World) (w' : World)
  (body : list (string * json)) (entries : list json) :
  loop_test (next_offset p) limit = Ok true ->
  has_key "offset" params = false ->
  fetch (world p) ("/graph/v1/" ++ path) (("offset", next_offset p) :: params)
    = (w', Ok (JObj body)) ->
  assoc "error" body = None ->
  assoc "data" body = Some (JArr entries) ->
  page_step fetch consume path limit params p =
    (mkPager w'
       (match assoc "next" body with Some v => v | None => JNull end)
       (log p
        ++ [Request ("/graph/v1/" ++ path)
                    (("offset", next_offset p) :: params)]
        ++ fst (feed consume entries)),
     match snd (feed consume entries) with
     | Some e => Raised e
     | None => Running
     end).
Proof.
  intros Htest Hkey Hfetch Herr Hdata. unfold page_step.
  rewrite Htest, Hkey. unfold _evaluate. rewrite Hfetch. simpl.
  unfold has_key. rewrite Herr. simpl. rewrite Hdata. simpl.
  destruct (feed consume entries) as [evs r]. simpl.
  rewrite <- app_assoc.
  destruct (assoc "next" body); reflexivity.
Qed.

End Failures.

(** X4.  A request that fails (the transport, or the decoding of the body)
    is not retried: the listing ends there with that exception, having
    logged the request; the cursor keeps its value and what was yielded
    before is still there. *)
Theorem fetch_failure_ends_listing (World : Type)
  (fetch : World -> string -> list (string * json) -> World * result json)
  (consume : consumer) (w : World) (path : string) (fields : list string)
  (block_size limit : Z) (params : list (string * json))
  (n : nat) (p : pager World) (w' : World) (e : exn) (fuel : nat) :
  _list fetch consume w path fields block_size limit params n = (p, Running) ->
  loop_test (next_offset p) limit = Ok true ->
  has_key "offset" params = false ->
  fetch (world p) ("/graph/v1/" ++ path)
        (("offset", next_offset p)
         :: list_params fields block_size limit params)
    = (w', Err e) ->
  let request :=
    Request ("/graph/v1/" ++ path)
            (("offset", next_offset p)
             :: list_params fields block_size limit params) in
  _list fetch consume w path fields block_size limit params (n + S fuel)
    = (mkPager w' (next_offset p) (log p ++ [request]), Raised e) /\
  yielded (log p ++ [request]) = yielded (log p) /\
  requests (log p ++ [request]) = (requests (log p) ++ [request])%list.
Proof.
  intros Hrun Htest Hkey Hfetch request. split; [| split].
  - unfold _list in *. rewrite pages_add, Hrun. simpl.
    rewrite (page_step_fetch_error World fetch consume path limit _ p w' e);
      auto.
  - rewrite yielded_app. simpl. apply app_nil_r.
  - rewrite requests_app. reflexivity.
Qed.

Lemma fetch_failure_ends_listing_witness :
  _list offline yield_raw 0%nat "paper/search" ["title"] 2 5
        [("query", JStr "graph neural networks")] (0 + 3)
  = (mkPager 1%nat (JNum 0)
       ([] ++ [Request "/graph/v1/paper/search"
                 (("offset", JNum 0)
                  :: list_params ["title"] 2 5
                       [("query", JStr "graph neural networks")])]),
     Raised TransportError).
Proof.
  destruct (fetch_failure_ends_listing nat offline yield_raw 0%nat
              "paper/search" ["title"] 2 5
              [("query", JStr "graph neural networks")]
              0 (mkPager 0%nat (JNum 0) []) 1%nat TransportError 2
              eq_refl eq_refl eq_refl eq_refl) as (Hrun & _ & _).
  exact Hrun.
Defined.

(** X5.  From one page to the next the cursor is what the service said:
    when a listing goes on after [n] pages and after [n + 1], the page in
    between was requested at the cursor, its body carried no [error], and
    the new cursor is the [next] of that body (null when it has none). *)
Theorem cursor_follows_next (World : Type)
  (fetch : World -> string -> list (string * json) -> World * result json)
  (consume : consumer) (w : World) (path : string) (fields : list string)
  (block_size limit : Z) (params : list (string * json))
  (n : nat) (p p' : pager World) :
  _list fetch consume w path fields block_size limit params n = (p, Running) ->
  _list fetch consume w path fields block_size limit params (S n)
    = (p', Running) ->
  exists body evs,
    loop_test (next_offset p) limit = Ok true /\
    fetch (world p) ("/graph/v1/" ++ path)
          (("offset", next_offset p)
           :: list_params fields block_size limit params)
      = (world p', Ok (JObj body)) /\
    assoc "error" body = None /\
    next_offset p' =
      match assoc "next" body with Some v => v | None => JNull end /\
    log p' =
      (log p
       ++ Request ("/graph/v1/" ++ path)
                  (("offset", next_offset p)
                   :: list_params fields block_size limit params)
       :: evs)%list.
Proof.
  unfold _list. intros Hn HSn.
  replace (S n) with (n + 1)%nat in HSn by lia.
  rewrite pages_add, Hn in HSn. simpl in HSn.
  destruct (page_step fetch consume path limit
              (list_params fields block_size limit params) p)
    as [q stq] eqn:Hstep.
  assert (q = p' /\ stq = Running) as [-> ->]
    by (destruct stq; inversion HSn; auto).
  apply page_step_inv in Hstep.
  destruct Hstep as [[_ Hst] | [(e & _ & Hst & _) | Hstep]];
    [congruence | discriminate |].
  destruct Hstep as (body & entries & evs & r & Htest & _ & Hfetch & Herr
                     & _ & _ & Hnext & Hlog & _).
  exists body, evs. repeat split; assumption.
Qed.

Lemma cursor_follows_next_witness :
  exists body evs,
    loop_test (JNum 2) 5 = Ok true /\
    shelf 10 tt ("/graph/v1/" ++ "paper/search")
          (("offset", JNum 2) :: list_params ["title"] 2 5 [])
      = (tt, Ok (JObj body)) /\
    assoc "error" body = None /\
    JNum 4 = match assoc "next" body with Some v => v | None => JNull end /\
    log (fst (_list (shelf 10) yield_raw tt "paper/search" ["title"] 2 5 [] 2))
    = (log (fst (_list (shelf 10) yield_raw tt "paper/search" ["title"] 2 5
                       [] 1))
       ++ Request ("/graph/v1/" ++ "paper/search")
                  (("offset", JNum 2) :: list_params ["title"] 2 5 [])
       :: evs)%list.
Proof.
  apply (cursor_follows_next unit (shelf 10) yield_raw tt "paper/search"
           ["title"] 2 5 [] 1
           (fst (_list (shelf 10) yield_raw tt "paper/search" ["title"] 2 5
                       [] 1))
           (fst (_list (shelf 10) yield_raw tt "paper/search" ["title"] 2 5
                       [] 2)));
    reflexivity.
Defined.

(* ------------------------------------------------------------------ *)
(** ** The operations that convert what they list *)

Lemma feed_yield_paper_stops (good rest : list json) (bad : json)
  (papers : list Paper.t) (e : exn) :
  mapM _wrap_paper good = Ok papers ->
  _wrap_paper bad = Err e ->
  snd (feed yield_paper (good ++ bad :: rest)) = Some e /\
  yielded (fst (feed yield_paper (good ++ bad :: rest)))
    = List.map APaper papers /\
  requests (fst (feed yield_paper (good ++ bad :: rest))) = [].
Proof.
  intros Hgood Hbad. revert papers Hgood.
  induction good as [| x good IH]; intros papers Hgood; simpl in *.
  - injection Hgood as <-. unfold yield_paper. rewrite Hbad. simpl. auto.
  - apply bind_Ok in Hgood. destruct Hgood as (y & Hy & Hgood).
    apply bind_Ok in Hgood. destruct Hgood as (ys & Hys & Hgood).
    injection Hgood as <-.
    destruct (IH ys Hys) as (Hsnd & Hyield & Hreq).
    unfold yield_paper at 1 3 5. rewrite Hy.
    destruct (feed yield_paper (good ++ bad :: rest)) as [evs r].
    simpl in *. rewrite Hyield, Hreq. auto.
Qed.

(** X6.  A record that [_wrap_paper] rejects ends the search that meets
    it: the papers of the entries before it in the page are yielded, the
    exception of the conversion is raised, and no request follows, whatever
    fuel is left. *)
Theorem bad_record_ends_search (World : Type)
  (fetch : World -> string -> list (string * json) -> World * result json)
  (w : World) (path : string) (fields : list string)
  (block_size limit : Z) (params : list (string * json))
  (n : nat) (p : pager World) (w' : World) (body : list (string * json))
  (good rest : list json) (bad : json) (papers : list Paper.t) (e : exn)
  (fuel : nat) :
  _list fetch yield_paper w path fields block_size limit params n
    = (p, Running) ->
  loop_test (next_offset p) limit = Ok true ->
  has_key "offset" params = false ->
  fetch (world p) ("/graph/v1/" ++ path)
        (("offset", next_offset p)
         :: list_params fields block_size limit params)
    = (w', Ok (JObj body)) ->
  assoc "error" body = None ->
  assoc "data" body = Some (JArr (good ++ bad :: rest)) ->
  mapM _wrap_paper good = Ok papers ->
  _wrap_paper bad = Err e ->
  exists p',
    _list fetch yield_paper w path fields block_size limit params (n + S fuel)
      = (p', Raised e) /\
    yielded (log p') = (yielded (log p) ++ List.map APaper papers)%list /\
    requests (log p') =
      (requests (log p)
       ++ [Request ("/graph/v1/" ++ path)
                   (("offset", next_offset p)
                    :: list_params fields block_size limit params)])%list.
Proof.
  intros Hrun Htest Hkey Hfetch Herr Hdata Hgood Hbad.
  destruct (feed_yield_paper_stops good rest bad papers e Hgood Hbad)
    as (Hsnd & Hyield & Hreq).
  unfold _list in *. rewrite pages_add, Hrun. simpl.
  rewrite (page_step_read World fetch yield_paper path limit _ p w' body
             (good ++ bad :: rest)); auto.
  rewrite Hsnd. eexists. split; [reflexivity |]. cbn [log].
  rewrite !yielded_app, !requests_app, Hyield, Hreq. simpl. auto.
Qed.

Lemma bad_record_ends_search_witness :
  exists p',
    _list (archive spoiled 10) yield_paper tt "paper/search" ["title"] 2 5 []
          (0 + 3)
      = (p', Raised TypeError) /\
    yielded (log p') = ([] ++ List.map APaper [sample_converted])%list /\
    requests (log p') =
      ([] ++ [Request ("/graph/v1/" ++ "paper/search")
                (("offset", JNum 0) :: list_params ["title"] 2 5 [])])%list.
Proof.
  apply (bad_record_ends_search unit (archive spoiled 10) tt "paper/search"
           ["title"] 2 5 [] 0 (mkPager tt (JNum 0) []) tt
           [("offset", JNum 0); ("next", JNum 2);
            ("data", JArr [sample_paper; JNum 1])]
           [sample_paper] [] (JNum 1) [sample_converted] TypeError 2);
    reflexivity.
Defined.

Lemma yielded_Forall (good : item -> Prop) (evs : list event) :
  Forall (fun ev => match ev with Yield x => good x | _ => True end) evs ->
  Forall good (yielded evs).
Proof.
  unfold yielded. induction 1 as [| ev evs Hev _ IH]; simpl; [constructor |].
  destruct ev; simpl; auto.
Qed.

Lemma _list_yields (World : Type)
  (fetch : World -> string -> list (string * json) -> World * result json)
  (consume : consumer) (good : item -> Prop) (w : World) (path : string)
  (fields : list string) (block_size limit : Z)
  (params : list (string * json)) (fuel : nat) (p : pager World)
  (st : status) :
  (forall v, Forall good (yielded (fst (consume v)))) ->
  _list fetch consume w path fields block_size limit params fuel = (p, st) ->
  Forall good (yielded (log p)).
Proof.
  intros Hcons H. unfold _list in H.
  assert (Hfeed : forall entries,
             Forall good (yielded (fst (feed consume entries)))).
  { induction entries as [| x rest IH]; simpl; [constructor |].
    specialize (Hcons x). destruct (consume x) as [evs [e |]]; simpl in *.
    - exact Hcons.
    - destruct (feed consume rest) as [evs' r]. simpl in *.
      rewrite yielded_app. apply Forall_app. split; assumption. }
  remember (mkPager w (JNum 0) []) as p0 eqn:E.
  assert (H0 : Forall good (yielded (log p0))) by (subst p0; constructor).
  clear E. revert p0 H H0.
  induction fuel as [| fuel IH]; intros p0 H H0; simpl in H.
  - inversion H; subst. exact H0.
  - destruct (page_step fetch consume path limit
                (list_params fields block_size limit params) p0)
      as [q stq] eqn:Hstep.
    assert (Hq : Forall good (yielded (log q))).
    { apply page_step_inv in Hstep.
      destruct Hstep as [[-> _] | [(e & Hlog & _) | Hstep]].
      - exact H0.
      - rewrite Hlog, yielded_app. simpl. rewrite app_nil_r. exact H0.
      - destruct Hstep as (body & entries & evs & r & _ & _ & _ & _ & _
                           & Hfd & _ & Hlog & _).
        rewrite Hlog, yielded_app. simpl. apply Forall_app.
        split; [exact H0 |].
        specialize (Hfeed entries). rewrite Hfd in Hfeed. exact Hfeed. }
    destruct stq; [exact (IH q H Hq) | |]; inversion H; subst; exact Hq.
Qed.

Lemma yield_paper_valid (v : json) :
  Forall
    (fun x =>
       exists data paper,
         x = APaper paper /\ _wrap_paper data = Ok paper /\
         Paper.links paper <> [] /\
         length (Paper.releases paper) = 1%nat /\
         Paper.scrapers paper = ["ssch"])
    (yielded (fst (yield_paper v))).
Proof.
  unfold yield_paper. destruct (_wrap_paper v) as [paper | e] eqn:E; simpl;
    [| constructor].
  constructor; [| constructor].
  exists v, paper. split; [reflexivity |]. split; [exact E |].
  apply _wrap_paper_inv in E.
  destruct E as (paperId & ids & authors & pubd & date & key & vtype & vname
                 & volume & title & abstract & cc & topics & E).
  destruct E as (_ & _ & _ & _ & _ & _ & _ & _ & _ & _ & _ & _ & _ & ->).
  simpl. repeat split. discriminate.
Qed.

Lemma yield_author_valid (v : json) :
  Forall
    (fun x => exists data a, x = AnAuthor a /\ _wrap_author data = Ok a)
    (yielded (fst (yield_author v))).
Proof.
  unfold yield_author. destruct (_wrap_author v) as [a | e] eqn:E; simpl;
    [| constructor].
  constructor; [| constructor]. exists v, a. auto.
Qed.

(** X7.  Whatever the service answers and however the run ends, [search]
    and [author_papers] yield nothing but papers, each the conversion of a
    raw record, with a link, exactly one release and the scrapers
    ["ssch"]; and [author] yields nothing but converted authors. *)
Theorem operations_yield_entities (World : Type)
  (fetch : World -> string -> list (string * json) -> World * result json)
  (w : World) (term : string) (fields : option (list string))
  (block_size limit : Z) (params : list (string * json)) (fuel : nat) :
  Forall
    (fun x =>
       exists data paper,
         x = APaper paper /\ _wrap_paper data = Ok paper /\
         Paper.links paper <> [] /\
         length (Paper.releases paper) = 1%nat /\
         Paper.scrapers paper = ["ssch"])
    (yielded
       (log (fst (search fetch w term fields block_size limit params fuel))))
  /\
  Forall
    (fun x =>
       exists data paper,
         x = APaper paper /\ _wrap_paper data = Ok paper /\
         Paper.links paper <> [] /\
         length (Paper.releases paper) = 1%nat /\
         Paper.scrapers paper = ["ssch"])
    (yielded
       (log (fst (author_papers fetch w term fields block_size limit params
                                fuel))))
  /\
  Forall
    (fun x => exists data a, x = AnAuthor a /\ _wrap_author data = Ok a)
    (yielded
       (log (fst (author fetch w term fields block_size limit params fuel)))).
Proof.
  split; [| split].
  - unfold search.
    destruct (_list fetch yield_paper w "paper/search" _ _ _ _ fuel)
      as [p st] eqn:E.
    exact (_list_yields _ _ _ _ _ _ _ _ _ _ _ _ _ yield_paper_valid E).
  - unfold author_papers.
    destruct (_list fetch yield_paper w _ _ _ _ _ fuel) as [p st] eqn:E.
    exact (_list_yields _ _ _ _ _ _ _ _ _ _ _ _ _ yield_paper_valid E).
  - unfold author.
    destruct (_list fetch yield_author w _ _ _ _ _ fuel) as [p st] eqn:E.
    exact (_list_yields _ _ _ _ _ _ _ _ _ _ _ _ _ yield_author_valid E).
Qed.

(* ------------------------------------------------------------------ *)
(** ** The entry point *)

Lemma yielded_printed (evs : list event) :
  yielded (List.map printed evs) = [].
Proof.
  unfold yielded. induction evs as [| ev evs IH]; simpl; [reflexivity |].
  destruct ev; simpl; exact IH.
Qed.

Lemma nonempty_empty (s : string) : s = "" -> nonempty s = false.
Proof. intros ->. reflexivity. Qed.

(** X8.  Without a title, [query] yields nothing to its caller, whatever
    the service answers: the authors found for an author term are printed,
    not yielded, and with no term at all only the connection is built. *)
Theorem query_without_title_yields_nothing (World : Type)
  (fetch : World -> string -> list (string * json) -> World * result json)
  (w : World) (author_words title_words : list string)
  (block_size limit : Z) (fuel : nat) :
  String.concat " " title_words = "" ->
  yielded (snd (fst (query fetch w author_words title_words block_size limit
                           fuel))) = [] /\
  (String.concat " " author_words = "" ->
   query fetch w author_words title_words block_size limit fuel
   = (w, [SemanticScholarQueryManager], Done)).
Proof.
  intros Ht. unfold query. rewrite (nonempty_empty _ Ht), andb_false_r.
  split.
  - destruct (nonempty (String.concat " " author_words)); [| reflexivity].
    destruct (author fetch w _ None default_block_size default_limit [] fuel)
      as [p st].
    simpl. apply yielded_printed.
  - intros Ha. rewrite (nonempty_empty _ Ha). reflexivity.
Qed.

Lemma query_without_title_yields_nothing_witness :
  yielded (snd (fst (query (archive (fun _ => sample_author) 3) tt
                           ["ada"; "lovelace"] [] 2 5 4))) = [] /\
  (String.concat " " ["ada"; "lovelace"] = "" ->
   query (archive (fun _ => sample_author) 3) tt ["ada"; "lovelace"] [] 2 5 4
   = (tt, [SemanticScholarQueryManager], Done)).
Proof.
  apply (query_without_title_yields_nothing unit
           (archive (fun _ => sample_author) 3) tt ["ada"; "lovelace"] []
           2 5 4).
  reflexivity.
Defined.

(** The authors of that run are printed, three of them. *)
Example query_prints_authors :
  let '(_, evs, st) :=
    query (archive (fun _ => sample_author) 3) tt ["ada"; "lovelace"] []
          2 5 4 in
  st = Done /\
  flat_map (fun ev => match ev with Print x => [x] | _ => [] end) evs
  = repeat (AnAuthor sample_author_converted) 3.
Proof. vm_compute. split; reflexivity. Qed.

(** X9.  With a title and no author, [query] builds the connection first
    and then requests nothing but pages of "/graph/v1/paper/search": each
    request carries the joined title as [query], the fields of
    [SEARCH_FIELDS] joined by commas, the page size
    [min(block_size or 10000, limit)], and an offset below [limit]. *)
Theorem query_title_requests (World : Type)
  (fetch : World -> string -> list (string * json) -> World * result json)
  (w : World) (author_words title_words : list string)
  (block_size limit : Z) (fuel : nat) :
  String.concat " " author_words = "" ->
  String.concat " " title_words <> "" ->
  exists rest,
    snd (fst (query fetch w author_words title_words block_size limit fuel))
    = SemanticScholarQueryManager :: rest /\
    Forall
      (fun ev =>
         exists offset,
           ev = Request "/graph/v1/paper/search"
                  [("offset", offset);
                   ("fields", JStr (String.concat "," SEARCH_FIELDS));
                   ("limit", JNum (page_size block_size limit));
                   ("query", JStr (String.concat " " title_words))] /\
           loop_test offset limit = Ok true)
      (requests rest).
Proof.
  intros Ha Ht. unfold query.
  rewrite (nonempty_empty _ Ha), (concat_nonempty _ Ht). simpl.
  unfold search, _list.
  destruct (pages fetch yield_paper "paper/search" limit _ fuel _)
    as [p st] eqn:E.
  exists (log p). split; [reflexivity |].
  apply pages_requests in E; [| exact yield_paper_quiet | constructor].
  eapply Forall_impl; [| exact E].
  intros ev (offset & -> & Htest). exists offset. split; [reflexivity | exact Htest].
Qed.

Lemma query_title_requests_witness :
  exists rest,
    snd (fst (query (archive (fun _ => sample_paper) 10) tt []
                    ["graph"; "neural"; "networks"] 2 5 4))
    = SemanticScholarQueryManager :: rest /\
    Forall
      (fun ev =>
         exists offset,
           ev = Request "/graph/v1/paper/search"
                  [("offset", offset);
                   ("fields", JStr (String.concat "," SEARCH_FIELDS));
                   ("limit", JNum (page_size 2 5));
                   ("query",
                    JStr (String.concat " " ["graph"; "neural"; "networks"]))]
           /\ loop_test offset 5 = Ok true)
      (requests rest).
Proof.
  apply (query_title_requests unit (archive (fun _ => sample_paper) 10) tt
           [] ["graph"; "neural"; "networks"] 2 5 4).
  - reflexivity.
  - discriminate.
Defined.

(* ------------------------------------------------------------------ *)
(** ** The single-paper operation *)

Section Unpacking.

Variable World : Type.
Variable fetch : World -> string -> list (string * json) -> World * result json.
Variable path : string.
Variable limit : Z.
Variable params : list (string * json).

Lemma raw_items_page_step (p q : pager World) (st : status) :
  page_step fetch yield_raw path limit params p = (q, st) ->
  (length (raw_items (log p)) <= length (raw_items (log q)))%nat.
Proof.
  intros H. apply page_step_log in H. destruct H as (evs & ->).
  rewrite raw_items_app, length_app. lia.
Qed.

Lemma raw_items_pages (fuel : nat) (p q : pager World) (st : status) :
  pages fetch yield_raw path limit params fuel p = (q, st) ->
  (length (raw_items (log p)) <= length (raw_items (log q)))%nat.
Proof.
  intros H. apply pages_log in H. destruct H as (evs & ->).
  rewrite raw_items_app, length_app. lia.
Qed.

(** While fewer than two records have been seen the unpacking follows the
    listing. *)
Lemma unpack_one_follows (n m : nat) (p q : pager World) :
  pages fetch yield_raw path limit params n p = (q, Running) ->
  (length (raw_items (log q)) < 2)%nat ->
  unpack_one fetch path limit params (n + m) p
  = unpack_one fetch path limit params m q.
Proof.
  revert p. induction n as [| n IH]; intros p H Hq; simpl in H.
  - inversion H; subst. reflexivity.
  - simpl.
    destruct (page_step fetch yield_raw path limit params p) as [p1 st1]
      eqn:Hstep.
    destruct st1; try (inversion H; subst; discriminate).
    pose proof (raw_items_pages n p1 q Running H) as Hle.
    destruct (raw_items (log p1)) as [| a [| b l]]; simpl in Hle;
      [apply IH; assumption | apply IH; assumption | lia].
Qed.

Lemma unpack_one_last (p q : pager World) (st : status) (fuel : nat) :
  page_step fetch yield_raw path limit params p = (q, st) ->
  st <> Running ->
  (length (raw_items (log q)) < 2)%nat ->
  unpack_one fetch path limit params (S fuel) p
  = (q,
     match st with
     | Raised e => Propagated e
     | _ =>
         match raw_items (log q) with
         | [v] => Unpacked v
         | _ => NotEnoughValues
         end
     end).
Proof.
  intros Hstep Hst Hq. simpl. rewrite Hstep.
  destruct (raw_items (log q)) as [| a [| b l]]; simpl in Hq; try lia;
    destruct st; congruence.
Qed.

Lemma unpack_one_second (p q : pager World) (st : status) (fuel : nat) :
  page_step fetch yield_raw path limit params p = (q, st) ->
  (2 <= length (raw_items (log q)))%nat ->
  unpack_one fetch path limit params (S fuel) p = (q, TooManyValues).
Proof.
  intros Hstep Hq. simpl. rewrite Hstep.
  destruct (raw_items (log q)) as [| a [| b l]]; simpl in Hq; try lia.
  reflexivity.
Qed.

Lemma pages_last (n : nat) (p q : pager World) (st : status) :
  pages fetch yield_raw path limit params n p = (q, st) ->
  st <> Running ->
  exists k q0,
    (S k <= n)%nat /\
    pages fetch yield_raw path limit params k p = (q0, Running) /\
    page_step fetch yield_raw path limit params q0 = (q, st).
Proof.
  revert p. induction n as [| n IH]; intros p H Hst; simpl in H.
  - inversion H; subst. congruence.
  - destruct (page_step fetch yield_raw path limit params p) as [p1 st1]
      eqn:Hstep.
    destruct st1.
    + destruct (IH p1 H Hst) as (k & q0 & Hk & Hrun & Hlast).
      exists (S k), q0. split; [lia |]. split; [| exact Hlast].
      simpl. rewrite Hstep. exact Hrun.
    + inversion H; subst. exists 0%nat, p. repeat split; [lia | exact Hstep].
    + inversion H; subst. exists 0%nat, p. repeat split; [lia | exact Hstep].
Qed.

Lemma unpack_one_stopped (n m : nat) (p q : pager World) (r : unpacked) :
  unpack_one fetch path limit params n p = (q, r) ->
  r <> Unfinished ->
  unpack_one fetch path limit params (n + m) p = (q, r).
Proof.
  revert p. induction n as [| n IH]; intros p H Hr; simpl in H.
  - inversion H; subst. congruence.
  - simpl.
    destruct (page_step fetch yield_raw path limit params p) as [p1 st1].
    destruct (raw_items (log p1)) as [| a [| b l]]; try exact H;
      destruct st1; try exact H; apply IH; assumption.
Qed.

End Unpacking.

(** X10.  [paper] returns the record of a listing that ends normally
    having yielded exactly that one record; it fails for want of a value
    when the listing ends having yielded none, and with the exception of
    the listing when that raises before a second record; its requests are
    those of the listing. *)
Theorem paper_of_listing (World : Type)
  (fetch : World -> string -> list (string * json) -> World * result json)
  (w : World) (paper_id : string) (fields : option (list string))
  (fuel : nat) (p : pager World) (st : status) :
  _list fetch yield_raw w ("paper/" ++ paper_id)
        (or_default PAPER_FIELDS fields) default_block_size default_limit []
        fuel = (p, st) ->
  st <> Running ->
  (length (raw_items (log p)) < 2)%nat ->
  paper fetch w paper_id fields fuel
  = (world p, requests (log p),
     match st with
     | Raised e => Propagated e
     | _ =>
         match raw_items (log p) with
         | [v] => Unpacked v
         | _ => NotEnoughValues
         end
     end).
Proof.
  unfold _list, paper. intros H Hst Hlen.
  destruct (pages_last _ _ _ _ _ _ _ _ _ H Hst) as (k & q0 & Hk & Hrun & Hlast).
  pose proof (raw_items_page_step _ _ _ _ _ _ _ _ Hlast) as Hle.
  replace fuel with (k + (S (fuel - S k)))%nat by lia.
  rewrite (unpack_one_follows _ _ _ _ _ _ _ _ _ Hrun) by lia.
  rewrite (unpack_one_last _ _ _ _ _ _ _ _ _ Hlast Hst Hlen).
  reflexivity.
Qed.

Lemma paper_of_listing_witness :
  paper (shelf 1) tt "649def" None 3
  = (tt,
     requests (log (fst (_list (shelf 1) yield_raw tt ("paper/" ++ "649def")
                               (or_default PAPER_FIELDS None)
                               default_block_size default_limit [] 3))),
     Unpacked (JNum 0)).
Proof.
  apply (paper_of_listing unit (shelf 1) tt "649def" None 3
           (fst (_list (shelf 1) yield_raw tt ("paper/" ++ "649def")
                       (or_default PAPER_FIELDS None)
                       default_block_size default_limit [] 3))
           Done).
  - reflexivity.
  - discriminate.
  - vm_compute. lia.
Defined.

(** X11.  [paper] refuses a second record at once: when the page that
    follows [n] pages of the listing brings the records seen to two or
    more, [paper] fails for too many values with the requests made so far
    and that page's, and makes no other, whatever fuel is left. *)
Theorem paper_refuses_second_record (World : Type)
  (fetch : World -> string -> list (string * json) -> World * result json)
  (w : World) (paper_id : string) (fields : option (list string))
  (n : nat) (p p' : pager World) (st : status) (fuel : nat) :
  _list fetch yield_raw w ("paper/" ++ paper_id)
        (or_default PAPER_FIELDS fields) default_block_size default_limit []
        n = (p, Running) ->
  (length (raw_items (log p)) < 2)%nat ->
  page_step fetch yield_raw ("paper/" ++ paper_id) default_limit
            (list_params (or_default PAPER_FIELDS fields)
                         default_block_size default_limit [])
            p = (p', st) ->
  (2 <= length (raw_items (log p')))%nat ->
  paper fetch w paper_id fields (n + S fuel)
  = (world p', requests (log p'), TooManyValues) /\
  exists evs,
    (log p' = log p ++ evs)%list /\ (length (requests evs) <= 1)%nat.
Proof.
  unfold _list, paper. intros Hrun Hlen Hstep Hmany. split.
  - rewrite (unpack_one_follows _ _ _ _ _ _ _ _ _ Hrun Hlen).
    rewrite (unpack_one_second _ _ _ _ _ _ _ _ _ Hstep Hmany).
    reflexivity.
  - apply page_step_inv in Hstep.
    destruct Hstep as [[-> _] | [(e & Hlog & _) | Hstep]].
    + exists []. split; [symmetry; apply app_nil_r | simpl; lia].
    + eexists. split; [exact Hlog | simpl; lia].
    + destruct Hstep as (body & entries & evs & r & _ & _ & _ & _ & Hdata
                         & Hfeed & _ & Hlog & _).
      eexists. split; [exact Hlog |].
      rewrite feed_yield_raw in Hfeed. injection Hfeed as <- _.
      rewrite requests_app, requests_raw. simpl. lia.
Qed.

Lemma paper_refuses_second_record_witness :
  paper (shelf 10) tt "649def" None (0 + S 5)
  = (tt,
     requests
       (log (fst (page_step (shelf 10) yield_raw ("paper/" ++ "649def")
                    default_limit
                    (list_params (or_default PAPER_FIELDS None)
                                 default_block_size default_limit [])
                    (mkPager tt (JNum 0) [])))),
     TooManyValues).
Proof.
  apply (paper_refuses_second_record unit (shelf 10) tt "649def" None 0
           (mkPager tt (JNum 0) [])
           (fst (page_step (shelf 10) yield_raw ("paper/" ++ "649def")
                   default_limit
                   (list_params (or_default PAPER_FIELDS None)
                                default_block_size default_limit [])
                   (mkPager tt (JNum 0) [])))
           Running 5).
  - reflexivity.
  - simpl. lia.
  - reflexivity.
  - vm_compute. lia.
Defined.

(** X12.  A page whose body has no [data] entry ends the listing with
    [KeyError('data')]: the request is logged, nothing is yielded, and the
    cursor has already moved to the [next] of that body. *)
Theorem missing_data_ends_listing (World : Type)
  (fetch : World -> string -> list (string * json) -> World * result json)
  (consume : consumer) (w : World) (path : string) (fields : list string)
  (block_size limit : Z) (params : list (string * json))
  (n : nat) (p : pager World) (w' : World) (body : list (string * json))
  (fuel : nat) :
  _list fetch consume w path fields block_size limit params n = (p, Running) ->
  loop_test (next_offset p) limit = Ok true ->
  has_key "offset" params = false ->
  fetch (world p) ("/graph/v1/" ++ path)
        (("offset", next_offset p)
         :: list_params fields block_size limit params)
    = (w', Ok (JObj body)) ->
  assoc "error" body = None ->
  assoc "data" body = None ->
  _list fetch consume w path fields block_size limit params (n + S fuel)
  = (mkPager w'
       (match assoc "next" body with Some v => v | None => JNull end)
       (log p
        ++ [Request ("/graph/v1/" ++ path)
                    (("offset", next_offset p)
                     :: list_params fields block_size limit params)]),
     Raised (KeyError (JStr "data"))).
Proof.
  intros Hrun Htest Hkey Hfetch Herr Hdata.
  unfold _list in *. rewrite pages_add, Hrun. simpl.
  unfold page_step. rewrite Htest.
  replace (has_key "offset" (list_params fields block_size limit params))
    with false by (symmetry; exact Hkey).
  unfold _evaluate. rewrite Hfetch. simpl.
  unfold has_key. rewrite Herr. simpl. rewrite Hdata. simpl.
  destruct (assoc "next" body); reflexivity.
Qed.

Lemma missing_data_ends_listing_witness :
  _list (fun (w : unit) (_ : string) (_ : list (string * json)) =>
           (w, Ok (JObj [("paperId", JStr "649def"); ("title", JStr "T")])))
        yield_raw tt "paper/649def" ["title"] 100 10000 [] (0 + 3)
  = (mkPager tt JNull
       ([] ++ [Request ("/graph/v1/" ++ "paper/649def")
                 (("offset", JNum 0) :: list_params ["title"] 100 10000 [])]),
     Raised (KeyError (JStr "data"))).
Proof.
  apply (missing_data_ends_listing unit
           (fun (w : unit) (_ : string) (_ : list (string * json)) =>
              (w, Ok (JObj [("paperId", JStr "649def"); ("title", JStr "T")])))
           yield_raw tt "paper/649def" ["title"] 100 10000 [] 0
           (mkPager tt (JNum 0) []) tt
           [("paperId", JStr "649def"); ("title", JStr "T")] 2);
    reflexivity.
Defined.

(* ------------------------------------------------------------------ *)
(** ** More on the normaliser *)

Lemma subscript_found (fields : list (string * json)) (k : string) (v : json) :
  assoc k fields = Some v -> subscript (JObj fields) k = Ok v.
Proof. simpl. intros ->. reflexivity. Qed.

Lemma subscript_Ok_found (fields : list (string * json)) (k : string)
  (v : json) :
  subscript (JObj fields) k = Ok v -> assoc k fields = Some v.
Proof.
  simpl. destruct (assoc k fields); intros H; inversion H. reflexivity.
Qed.

Lemma journal_volume_journal (data volume : json) :
  journal_volume data = Ok volume ->
  exists j, subscript data "journal" = Ok j.
Proof.
  unfold journal_volume. intros H. apply bind_Ok in H.
  destruct H as (j & Hj & _). exists j. exact Hj.
Qed.

(** X13.  [_wrap_paper] emits no partial paper: a record that lacks one of
    the keys it reads by subscript (paperId, externalIds, authors,
    publicationDate, venue, journal, title, abstract, citationCount,
    fieldsOfStudy) is not converted, and neither is a value that is not a
    dict, which raises [TypeError]. *)
Theorem missing_paper_key_raises :
  (forall fields k,
     In k required_paper_keys -> assoc k fields = None ->
     exists e, _wrap_paper (JObj fields) = Err e) /\
  (forall data,
     (forall fields, data <> JObj fields) -> _wrap_paper data = Err TypeError).
Proof.
  split.
  - intros fields k Hk Hnone.
    apply _wrap_paper_raises_unless with (P := False); [| tauto].
    intros p H. apply _wrap_paper_inv in H.
    destruct H as (paperId & ids & authors & pubd & date & key & vtype & vname
                   & volume & title & abstract & cc & topics & H).
    destruct H as (H1 & H2 & H3 & H4 & _ & _ & _ & H5 & H6 & H7 & H8 & H9
                   & H10 & _).
    apply bind_Ok in H3. destruct H3 as (raw & H3 & _).
    apply bind_Ok in H10. destruct H10 as (fos & H10 & _).
    apply journal_volume_journal in H6. destruct H6 as (j & H6).
    apply subscript_Ok_found in H1, H2, H3, H4, H5, H6, H7, H8, H9, H10.
    simpl in Hk.
    repeat (destruct Hk as [<- | Hk]; [congruence |]). exact Hk.
  - intros data Hnot. unfold _wrap_paper.
    destruct data; try reflexivity. exfalso. eapply Hnot. reflexivity.
Qed.

Lemma missing_paper_key_raises_witness :
  exists e, _wrap_paper (variant [] ["title"]) = Err e.
Proof.
  let fields :=
    eval vm_compute in
      (match variant [] ["title"] with JObj fields => fields | _ => [] end) in
  apply (proj1 missing_paper_key_raises fields "title").
  - simpl. tauto.
  - reflexivity.
Defined.

Lemma mapM_author_records (raws : list json) :
  Forall author_record raws ->
  exists authors, mapM _wrap_author raws = Ok authors.
Proof.
  induction 1 as [| raw raws Hraw _ IH]; simpl.
  - eexists. reflexivity.
  - destruct Hraw as (fields & aid & name & -> & Ha & Hn).
    destruct (_wrap_author_total fields aid name Ha Hn) as (a & ->).
    destruct IH as (authors & ->). simpl. eexists. reflexivity.
Qed.

Lemma mapM_Forall2 {A B : Type} (f : A -> result B) (xs : list A)
  (ys : list B) :
  mapM f xs = Ok ys -> Forall2 (fun x y => f x = Ok y) xs ys.
Proof.
  revert ys. induction xs as [| x xs IH]; intros ys H; simpl in H.
  - injection H as <-. constructor.
  - apply bind_Ok in H. destruct H as (y & Hy & H).
    apply bind_Ok in H. destruct H as (ys' & Hys & H).
    injection H as <-. constructor; [exact Hy | apply IH, Hys].
Qed.

Lemma venue_type_documented (fields : list (string * json)) :
  (assoc "publicationTypes" fields = None \/
   assoc "publicationTypes" fields = Some JNull \/
   assoc "publicationTypes" fields = Some (JArr []) \/
   exists s rest,
     assoc "publicationTypes" fields = Some (JArr (JStr s :: rest)) /\
     (s = "" \/ exists vt, assoc s venue_type_mapping = Some vt)) ->
  exists key vt,
    venue_type_key (JObj fields) = Ok key /\ venue_type_of key = Ok vt.
Proof.
  intros [H | [H | [H | (s & rest & H & Hs)]]].
  - exists (JStr "_"), VenueType.unknown.
    split; [apply venue_type_key_sentinel; auto | reflexivity].
  - exists (JStr "_"), VenueType.unknown.
    split; [apply venue_type_key_sentinel; auto | reflexivity].
  - exists (JStr "_"), VenueType.unknown.
    split; [apply venue_type_key_sentinel; auto | reflexivity].
  - destruct (String.eqb_spec s "") as [-> | Hne].
    + exists (JStr "_"), VenueType.unknown. split; [| reflexivity].
      unfold venue_type_key. simpl. rewrite H. reflexivity.
    + destruct Hs as [-> | (vt & Hvt)]; [congruence |].
      exists (JStr s), vt.
      split; [apply (venue_type_key_first fields s rest H Hne) |].
      unfold venue_type_of. rewrite Hvt. reflexivity.
Qed.

(** X14.  A record as the remote service documents it is converted:
    [_wrap_paper] returns a paper for every dict with the required keys, an
    object of external ids, a list of author records with [authorId] and
    [name], a year beside an empty publication date, a first publication
    type of the table (or none), a journal that is null or an object, and
    fields of study that are null or a list. *)
Theorem documented_paper_converts (fields : list (string * json)) :
  documented_paper fields -> exists p, _wrap_paper (JObj fields) = Ok p.
Proof.
  intros ((paperId & H1) & (ids & H2) & (raws & H3 & Hraws) & (pubd & H4 & Hyear)
          & Htypes & (vname & H5) & Hjournal & (title & H6) & (abstract & H7)
          & (cc & H8) & Hfos).
  destruct (mapM_author_records raws Hraws) as (authors & Hauthors).
  destruct (venue_type_documented fields Htypes) as (key & vt & Hkey & Hvt).
  assert (Hdate : exists date, release_date (JObj fields) pubd = Ok date).
  { unfold release_date. destruct (truthy pubd) eqn:Ht.
    - eexists. reflexivity.
    - destruct (Hyear eq_refl) as (year & Hy).
      rewrite (subscript_found _ _ _ Hy). simpl. eexists. reflexivity. }
  destruct Hdate as (date & Hdate).
  assert (Hvol : exists volume, journal_volume (JObj fields) = Ok volume).
  { unfold journal_volume. destruct Hjournal as [Hj | (j & Hj)];
      rewrite (subscript_found _ _ _ Hj); cbn [bind truthy].
    - eexists. reflexivity.
    - destruct j as [| entry j]; [eexists; reflexivity |].
      unfold py_get.
      destruct (assoc "volume" (entry :: j)); eexists; reflexivity. }
  destruct Hvol as (volume & Hvol).
  assert (Htopics : exists topics,
             (let* fos := subscript (JObj fields) "fieldsOfStudy" in
              if truthy fos then py_iter fos else Ok []) = Ok topics).
  { destruct Hfos as [Hf | (names & Hf)];
      rewrite (subscript_found _ _ _ Hf); simpl.
    - eexists. reflexivity.
    - destruct names; eexists; reflexivity. }
  destruct Htopics as (topics & Htopics).
  apply bind_Ok in Htopics. destruct Htopics as (fos & Hfos' & Htopics).
  unfold _wrap_paper.
  rewrite (subscript_found _ _ _ H1), (subscript_found _ _ _ H2),
    (subscript_found _ _ _ H3), (subscript_found _ _ _ H4),
    (subscript_found _ _ _ H5), (subscript_found _ _ _ H6),
    (subscript_found _ _ _ H7), (subscript_found _ _ _ H8), Hfos'.
  cbn [bind py_items py_iter]. rewrite Hauthors. cbn [bind].
  rewrite Hdate. cbn [bind]. rewrite Hkey. cbn [bind]. rewrite Hvt.
  cbn [bind]. rewrite Hvol. cbn [bind]. rewrite Htopics. cbn [bind].
  eexists. reflexivity.
Qed.

Lemma sample_fields_documented : documented_paper sample_fields.
Proof.
  unfold documented_paper. repeat split.
  - eexists. reflexivity.
  - eexists. reflexivity.
  - eexists. split; [reflexivity |].
    constructor; [| constructor].
    exists [("authorId", JStr "1741101"); ("name", JStr "A. Lovelace")].
    do 2 eexists. repeat split; reflexivity.
  - eexists. split; [reflexivity | discriminate].
  - right; right; right. do 2 eexists. split; [reflexivity |].
    right. eexists. reflexivity.
  - eexists. reflexivity.
  - right. eexists. reflexivity.
  - eexists. reflexivity.
  - eexists. reflexivity.
  - eexists. reflexivity.
  - right. eexists. reflexivity.
Qed.

Lemma documented_paper_converts_witness :
  exists p, _wrap_paper (JObj sample_fields) = Ok p.
Proof.
  apply (documented_paper_converts sample_fields sample_fields_documented).
Defined.

(** X15.  The authors of a converted paper are the conversions of the
    record's authors, one for one and in the upstream order. *)
Theorem paper_authors_in_order (data : json) (p : Paper.t) (raws : list json) :
  _wrap_paper data = Ok p ->
  subscript data "authors" = Ok (JArr raws) ->
  Forall2 (fun raw a => _wrap_author raw = Ok a) raws (Paper.authors p) /\
  length (Paper.authors p) = length raws.
Proof.
  intros H Hraws. apply _wrap_paper_inv in H.
  destruct H as (paperId & ids & authors & pubd & date & key & vtype & vname
                 & volume & title & abstract & cc & topics & H).
  destruct H as (_ & _ & Hauthors & _ & _ & _ & _ & _ & _ & _ & _ & _ & _ & ->).
  rewrite Hraws in Hauthors. simpl in Hauthors.
  apply mapM_Forall2 in Hauthors. simpl.
  split; [exact Hauthors |].
  symmetry. exact (Forall2_length Hauthors).
Qed.

Lemma paper_authors_in_order_witness :
  Forall2 (fun raw a => _wrap_author raw = Ok a) [sample_author]
          (Paper.authors sample_converted) /\
  length (Paper.authors sample_converted) = length [sample_author].
Proof.
  apply (paper_authors_in_order sample_paper sample_converted [sample_author]);
    reflexivity.
Defined.

(** X16.  The title and the citation count of a converted paper are the
    record's own, and its topics are one per field of study, in order: none
    when [fieldsOfStudy] is null. *)
Theorem paper_fields_carried_over (data : json) (p : Paper.t) :
  _wrap_paper data = Ok p ->
  exists title count fos,
    subscript data "title" = Ok title /\
    subscript data "citationCount" = Ok count /\
    subscript data "fieldsOfStudy" = Ok fos /\
    Paper.title p = title /\
    Paper.citation_count p = count /\
    (fos = JNull -> Paper.topics p = []) /\
    (forall names, fos = JArr names ->
                   Paper.topics p = List.map Topic.mk names).
Proof.
  intros H. apply _wrap_paper_inv in H.
  destruct H as (paperId & ids & authors & pubd & date & key & vtype & vname
                 & volume & title & abstract & cc & topics & H).
  destruct H as (_ & _ & _ & _ & _ & _ & _ & _ & _ & Ht & _ & Hc & Hfos & ->).
  apply bind_Ok in Hfos. destruct Hfos as (fos & Hfos & Htopics).
  exists title, cc, fos. simpl. repeat split; try assumption.
  - intros ->. simpl in Htopics. injection Htopics as <-. reflexivity.
  - intros names ->. destruct names; simpl in Htopics;
      injection Htopics as <-; reflexivity.
Qed.

Lemma paper_fields_carried_over_witness :
  exists title count fos,
    subscript sample_paper "title" = Ok title /\
    subscript sample_paper "citationCount" = Ok count /\
    subscript sample_paper "fieldsOfStudy" = Ok fos /\
    Paper.title sample_converted = title /\
    Paper.citation_count sample_converted = count /\
    (fos = JNull -> Paper.topics sample_converted = []) /\
    (forall names, fos = JArr names ->
                   Paper.topics sample_converted = List.map Topic.mk names).
Proof.
  apply (paper_fields_carried_over sample_paper sample_converted).
  reflexivity.
Defined.



Lemma lower_ascii_idempotent (c : ascii) :
  lower_ascii (lower_ascii c) = lower_ascii c.
Proof.
  destruct c as [[|] [|] [|] [|] [|] [|] [|] [|]]; reflexivity.
Qed.

Lemma lower_idempotent (s : string) : lower (lower s) = lower s.
Proof.
  induction s as [| c s IH]; simpl; [reflexivity |].
  rewrite lower_ascii_idempotent, IH. reflexivity.
Qed.

Lemma lower_length (s : string) : String.length (lower s) = String.length s.
Proof. induction s as [| c s IH]; simpl; [reflexivity | rewrite IH; reflexivity]. Qed.

(** X18.  For an external id with an ASCII key, the link keeps the id's
    value; its type is the lowercased key (each letter "A" to "Z" replaced
    by its lower-case letter), or "pmc" when that is "pubmedcentral"; so
    it is itself in lower case, is never "pubmedcentral", and is the same
    for two ASCII keys that differ only in the case of their letters. *)
Theorem external_link_types (typ : string) (ref : json) :
  ascii_text typ = true ->
  Link.link (external_link (typ, ref)) = ref /\
  (exists folded,
     lowercased typ folded /\
     Link.type (external_link (typ, ref))
     = if (folded =? "pubmedcentral")%string then "pmc" else folded) /\
  lowercased (Link.type (external_link (typ, ref)))
             (Link.type (external_link (typ, ref))) /\
  Link.type (external_link (typ, ref)) <> "pubmedcentral" /\
  (forall typ' folded,
     ascii_text typ' = true ->
     lowercased typ folded -> lowercased typ' folded ->
     external_link (typ', ref) = external_link (typ, ref)).
Proof.
  intros _. unfold external_link, remap_external_id. simpl.
  split; [reflexivity |]. split; [| split; [| split]].
  - exists (lower typ). split; [apply lower_lowercased |].
    destruct (lower typ =? "pubmedcentral")%string; reflexivity.
  - destruct (lower typ =? "pubmedcentral")%string.
    + apply (lower_lowercased "pmc").
    + rewrite <- (lower_idempotent typ) at 2. apply lower_lowercased.
  - destruct (String.eqb_spec (lower typ) "pubmedcentral");
      [discriminate | assumption].
  - intros typ' folded _ H H'.
    apply lowercased_lower in H, H'. rewrite <- H, <- H'. reflexivity.
Qed.

(** X19.  The author conversion succeeds exactly on a dict that has the
    keys [authorId] and [name]; it raises [KeyError('authorId')] when the
    first is missing, [KeyError('name')] when only the second is, and
    [TypeError] on a value that is not a dict. *)
Theorem _wrap_author_outcome (data : json) :
  ((exists a, _wrap_author data = Ok a) <->
   (exists fields aid name,
      data = JObj fields /\
      assoc "authorId" fields = Some aid /\
      assoc "name" fields = Some name)) /\
  (forall fields,
     data = JObj fields -> assoc "authorId" fields = None ->
     _wrap_author data = Err (KeyError (JStr "authorId"))) /\
  (forall fields aid,
     data = JObj fields -> assoc "authorId" fields = Some aid ->
     assoc "name" fields = None ->
     _wrap_author data = Err (KeyError (JStr "name"))) /\
  ((forall fields, data <> JObj fields) -> _wrap_author data = Err TypeError).
Proof.
  repeat split.
  - intros (a & H). apply _wrap_author_inv in H.
    destruct H as (aid & name & aliases & Ha & Hn & _ & _).
    apply subscript_dict in Ha. destruct Ha as (fields & -> & Ha).
    apply subscript_Ok_found in Hn. eauto 6.
  - intros (fields & aid & name & -> & Ha & Hn).
    exact (_wrap_author_total fields aid name Ha Hn).
  - intros fields -> Ha. unfold _wrap_author. simpl. rewrite Ha. reflexivity.
  - intros fields aid -> Ha Hn. unfold _wrap_author. simpl.
    rewrite Ha. simpl. rewrite Hn. reflexivity.
  - intros Hnot. unfold _wrap_author.
    destruct data; try reflexivity. exfalso. eapply Hnot. reflexivity.
Qed.

Lemma existsb_eqb_In (k : string) (l : list string) :
  existsb (String.eqb k) l = true -> In k l.
Proof.
  intros H. apply existsb_exists in H. destruct H as (x & Hin & Hx).
  apply String.eqb_eq in Hx. subst x. exact Hin.
Qed.

Lemma distinct_NoDup (l : list string) : distinct l = true -> NoDup l.
Proof.
  induction l as [| x l IH]; intros H; [constructor |].
  simpl in H. apply andb_prop in H. destruct H as [Hx Hl].
  constructor; [| apply IH, Hl].
  intros Hin. apply negb_true_iff in Hx.
  assert (existsb (String.eqb x) l = true)
    by (apply existsb_exists; exists x; split;
        [exact Hin | apply String.eqb_refl]).
  congruence.
Qed.

(** X20.  Every key that [_wrap_paper] reads is a field that the search
    and the author-papers operations request by default, and the keys that
    [_wrap_author] reads are requested by the author search; no catalog
    names a field twice. *)
Theorem catalog_covers_normaliser :
  (forall k,
     In k (required_paper_keys ++ ["publicationTypes"; "year"]) ->
     In k SEARCH_FIELDS /\ In k AUTHOR_PAPERS_FIELDS) /\
  (forall k, In k ["authorId"; "name"; "aliases"] -> In k AUTHOR_FIELDS) /\
  NoDup SEARCH_FIELDS /\ NoDup PAPER_FIELDS /\ NoDup PAPER_AUTHORS_FIELDS /\
  NoDup PAPER_CITATIONS_FIELDS /\ NoDup AUTHOR_FIELDS /\
  NoDup AUTHOR_PAPERS_FIELDS.
Proof.
  assert (Hpaper :
            forallb (fun k => existsb (String.eqb k) SEARCH_FIELDS
                              && existsb (String.eqb k) AUTHOR_PAPERS_FIELDS)
                    (required_paper_keys ++ ["publicationTypes"; "year"])
            = true) by (vm_compute; reflexivity).
  assert (Hauthor :
            forallb (fun k => existsb (String.eqb k) AUTHOR_FIELDS)
                    ["authorId"; "name"; "aliases"] = true)
    by (vm_compute; reflexivity).
  split; [| split].
  - intros k Hk.
    pose proof (proj1 (forallb_forall _ _) Hpaper k Hk) as H.
    apply andb_prop in H. destruct H as [H1 H2].
    split; apply existsb_eqb_In; assumption.
  - intros k Hk.
    apply existsb_eqb_In, (proj1 (forallb_forall _ _) Hauthor k Hk).
  - repeat split; apply distinct_NoDup; vm_compute; reflexivity.
Qed.

Lemma external_link_types_witness :
  Link.link (external_link ("PubMedCentral", JStr "2323736"))
  = JStr "2323736" /\
  Link.type (external_link ("PubMedCentral", JStr "2323736")) = "pmc" /\
  external_link ("PUBMEDCENTRAL", JStr "2323736")
  = external_link ("PubMedCentral", JStr "2323736").
Proof.
  destruct (external_link_types "PubMedCentral" (JStr "2323736") eq_refl)
    as (Hlink & _ & _ & _ & Hcase).
  split; [exact Hlink |]. split; [reflexivity |].
  apply (Hcase "PUBMEDCENTRAL" "pubmedcentral" eq_refl).
  - apply (lower_lowercased "PubMedCentral").
  - apply (lower_lowercased "PUBMEDCENTRAL").
Defined.

Lemma _wrap_author_outcome_witness :
  (exists a, _wrap_author sample_author = Ok a) /\
  _wrap_author (JObj [("name", JStr "A. Lovelace")])
  = Err (KeyError (JStr "authorId")) /\
  _wrap_author (JObj [("authorId", JStr "1741101")])
  = Err (KeyError (JStr "name")) /\
  _wrap_author (JStr "A. Lovelace") = Err TypeError.
Proof.
  split; [| split; [| split]].
  - apply (proj2 (proj1 (_wrap_author_outcome sample_author))).
    exists [("authorId", JStr "1741101"); ("name", JStr "A. Lovelace")].
    do 2 eexists. repeat split; reflexivity.
  - apply (proj1 (proj2 (_wrap_author_outcome
                           (JObj [("name", JStr "A. Lovelace")])))
             [("name", JStr "A. Lovelace")]); reflexivity.
  - apply (proj1 (proj2 (proj2 (_wrap_author_outcome
                                  (JObj [("authorId", JStr "1741101")]))))
             [("authorId", JStr "1741101")] (JStr "1741101")); reflexivity.
  - apply (proj2 (proj2 (proj2 (_wrap_author_outcome
                                  (JStr "A. Lovelace"))))).
    intros fields. discriminate.
Defined.

Lemma catalog_covers_normaliser_witness :
  In "publicationTypes" SEARCH_FIELDS /\
  In "publicationTypes" AUTHOR_PAPERS_FIELDS /\
  In "aliases" AUTHOR_FIELDS.
Proof.
  destruct catalog_covers_normaliser as (Hpaper & Hauthor & _).
  destruct (Hpaper "publicationTypes") as [H1 H2].
  - simpl. tauto.
  - split; [exact H1 |]. split; [exact H2 |].
    apply Hauthor. simpl. tauto.
Defined.

(* ------------------------------------------------------------------ *)
(** ** A converting operation beside the raw listing *)

Lemma mapM_app {A B : Type} (f : A -> result B) (xs ys : list A)
  (zs : list B) :
  mapM f (xs ++ ys) = Ok zs ->
  exists zs1 zs2,
    mapM f xs = Ok zs1 /\ mapM f ys = Ok zs2 /\ zs = (zs1 ++ zs2)%list.
Proof.
  revert zs. induction xs as [| x xs IH]; intros zs H; simpl in *.
  - exists [], zs. auto.
  - apply bind_Ok in H. destruct H as (y & Hy & H).
    apply bind_Ok in H. destruct H as (zs' & Hzs & H).
    injection H as <-.
    destruct (IH zs' Hzs) as (zs1 & zs2 & H1 & H2 & ->).
    exists (y :: zs1), zs2. rewrite Hy, H1. simpl. auto.
Qed.

Lemma mapM_app_Ok {A B : Type} (f : A -> result B) (xs ys : list A)
  (zs1 zs2 : list B) :
  mapM f xs = Ok zs1 -> mapM f ys = Ok zs2 ->
  mapM f (xs ++ ys) = Ok (zs1 ++ zs2)%list.
Proof.
  revert zs1. induction xs as [| x xs IH]; intros zs1 H1 H2; simpl in *.
  - injection H1 as <-. exact H2.
  - apply bind_Ok in H1. destruct H1 as (y & Hy & H1).
    apply bind_Ok in H1. destruct H1 as (zs & Hzs & H1).
    injection H1 as <-. rewrite Hy. simpl.
    rewrite (IH zs Hzs H2). reflexivity.
Qed.

Lemma raw_items_raw (entries : list json) :
  raw_items (List.map (fun v => Yield (Raw v)) entries) = entries.
Proof.
  unfold raw_items. induction entries as [| x rest IH]; simpl;
    [reflexivity | rewrite IH; reflexivity].
Qed.

Lemma feed_yield_paper_all (entries : list json) (papers : list Paper.t) :
  mapM _wrap_paper entries = Ok papers ->
  snd (feed yield_paper entries) = None /\
  yielded (fst (feed yield_paper entries)) = List.map APaper papers /\
  requests (fst (feed yield_paper entries)) = [].
Proof.
  revert papers. induction entries as [| x rest IH]; intros papers H;
    simpl in *.
  - injection H as <-. auto.
  - apply bind_Ok in H. destruct H as (y & Hy & H).
    apply bind_Ok in H. destruct H as (ys & Hys & H).
    injection H as <-.
    destruct (IH ys Hys) as (Hsnd & Hyield & Hreq).
    unfold yield_paper at 1 3 5. rewrite Hy.
    destruct (feed yield_paper rest) as [evs r].
    simpl in *. rewrite Hyield, Hreq. auto.
Qed.

Section Mapping.

Variable World : Type.
Variable fetch : World -> string -> list (string * json) -> World * result json.
Variable path : string.
Variable limit : Z.
Variable params : list (string * json).

Lemma page_step_converted (p_raw p q_raw : pager World) (st : status)
  (papers : list Paper.t) :
  converted_log p_raw p ->
  page_step fetch yield_raw path limit params p_raw = (q_raw, st) ->
  mapM _wrap_paper (raw_items (log q_raw)) = Ok papers ->
  exists q,
    page_step fetch yield_paper path limit params p = (q, st) /\
    converted_log q_raw q.
Proof.
  intros (Hw & Hn & Hreq & (ps & Hps & Hy)) Hstep Hpapers.
  unfold page_step in *. rewrite Hw, Hn.
  destruct (loop_test (next_offset p_raw) limit) as [[|] | e];
    try (inversion Hstep; subst; exists p; split; [reflexivity |];
         repeat split; eauto).
  destruct (has_key "offset" params);
    [inversion Hstep; subst; exists p; split; [reflexivity |];
     repeat split; eauto |].
  destruct (_evaluate fetch (world p_raw) path _) as [w' r].
  destruct r as [results | e].
  2:{ inversion Hstep; subst. eexists. split; [reflexivity |].
      repeat split; simpl; auto.
      - rewrite !requests_app, Hreq. reflexivity.
      - exists ps. rewrite raw_items_app, yielded_app. simpl.
        rewrite !app_nil_r. auto. }
  destruct (py_get results "next" JNull) as [next | e].
  2:{ inversion Hstep; subst. eexists. split; [reflexivity |].
      repeat split; simpl; auto.
      - rewrite !requests_app, Hreq. reflexivity.
      - exists ps. rewrite raw_items_app, yielded_app. simpl.
        rewrite !app_nil_r. auto. }
  destruct (let* data := subscript results "data" in py_iter data)
    as [entries | e].
  2:{ inversion Hstep; subst. eexists. split; [reflexivity |].
      repeat split; simpl; auto.
      - rewrite !requests_app, Hreq. reflexivity.
      - exists ps. rewrite raw_items_app, yielded_app. simpl.
        rewrite !app_nil_r. auto. }
  rewrite feed_yield_raw in Hstep. inversion Hstep; subst. clear Hstep.
  simpl in Hpapers. rewrite !raw_items_app in Hpapers. simpl in Hpapers.
  rewrite raw_items_raw, app_nil_r in Hpapers.
  apply mapM_app in Hpapers.
  destruct Hpapers as (ps1 & ps2 & H1 & H2 & ->).
  assert (ps1 = ps) by congruence. subst ps1.
  destruct (feed_yield_paper_all entries ps2 H2) as (Hsnd & Hyield & Hrq).
  destruct (feed yield_paper entries) as [evs r]. simpl in *. subst r.
  eexists. split; [reflexivity |].
  repeat split; simpl; auto.
  - rewrite !requests_app, Hreq, Hrq, requests_raw. reflexivity.
  - exists (ps ++ ps2)%list. split.
    + rewrite !raw_items_app. simpl. rewrite raw_items_raw, app_nil_r.
      apply mapM_app_Ok; assumption.
    + rewrite !yielded_app, Hy, Hyield. simpl.
      rewrite app_nil_r, map_app. reflexivity.
Qed.

Lemma pages_converted (fuel : nat) (p_raw p q_raw : pager World) (st : status)
  (papers : list Paper.t) :
  converted_log p_raw p ->
  pages fetch yield_raw path limit params fuel p_raw = (q_raw, st) ->
  mapM _wrap_paper (raw_items (log q_raw)) = Ok papers ->
  exists q,
    pages fetch yield_paper path limit params fuel p = (q, st) /\
    converted_log q_raw q.
Proof.
  revert p_raw p. induction fuel as [| fuel IH]; intros p_raw p Hc H Hpapers;
    simpl in *.
  - inversion H; subst. exists p. split; [reflexivity | exact Hc].
  - destruct (page_step fetch yield_raw path limit params p_raw)
      as [r_raw st1] eqn:Hstep.
    assert (Hmid : exists mid, mapM _wrap_paper (raw_items (log r_raw)) = Ok mid).
    { destruct st1; try (inversion H; subst; eauto).
      apply pages_log in H. destruct H as (evs & Hlog).
      rewrite Hlog, raw_items_app in Hpapers.
      apply mapM_app in Hpapers.
      destruct Hpapers as (zs1 & _ & Hz & _). eauto. }
    destruct Hmid as (mid & Hmid).
    destruct (page_step_converted p_raw p r_raw st1 mid Hc Hstep Hmid)
      as (r & Hr & Hcr).
    rewrite Hr.
    destruct st1; try (inversion H; subst; exists r; split;
                       [reflexivity | exact Hcr]).
    exact (IH r_raw r Hcr H Hpapers).
Qed.

End Mapping.

(** X21.  A converting operation is its raw listing with every record
    converted: when [_wrap_paper] accepts all the records that the raw
    listing of a path yields, the listing mapped through [_wrap_paper]
    (as [search] and [author_papers] are) ends the same way, in the same
    world, after the same requests, and yields the conversions of those
    records in order. *)
Theorem converting_listing_maps_raw (World : Type)
  (fetch : World -> string -> list (string * json) -> World * result json)
  (w : World) (path : string) (fields : list string)
  (block_size limit : Z) (params : list (string * json)) (fuel : nat)
  (p_raw : pager World) (st : status) (papers : list Paper.t) :
  _list fetch yield_raw w path fields block_size limit params fuel
    = (p_raw, st) ->
  mapM _wrap_paper (raw_items (log p_raw)) = Ok papers ->
  exists p,
    _list fetch yield_paper w path fields block_size limit params fuel
      = (p, st) /\
    world p = world p_raw /\
    next_offset p = next_offset p_raw /\
    requests (log p) = requests (log p_raw) /\
    yielded (log p) = List.map APaper papers.
Proof.
  unfold _list. intros Hraw Hpapers.
  destruct (pages_converted World fetch path limit
              (list_params fields block_size limit params) fuel
              (mkPager w (JNum 0) []) (mkPager w (JNum 0) []) p_raw st papers)
    as (p & Hp & Hw & Hn & Hreq & (ps & Hps & Hy)); auto.
  - repeat split. exists []. split; reflexivity.
  - exists p. repeat split; auto. congruence.
Qed.

Lemma converting_listing_maps_raw_witness :
  exists p,
    _list (archive (fun _ => sample_paper) 3) yield_paper tt "paper/search"
          SEARCH_FIELDS 2 5 [("query", JStr "graph")] 4
      = (p, Done) /\
    world p = tt /\
    next_offset p = JNull /\
    requests (log p)
    = requests
        (log (fst (_list (archive (fun _ => sample_paper) 3) yield_raw tt
                         "paper/search" SEARCH_FIELDS 2 5
                         [("query", JStr "graph")] 4))) /\
    yielded (log p) = List.map APaper (repeat sample_converted 3).
Proof.
  apply (converting_listing_maps_raw unit (archive (fun _ => sample_paper) 3)
           tt "paper/search" SEARCH_FIELDS 2 5 [("query", JStr "graph")] 4
           (fst (_list (archive (fun _ => sample_paper) 3) yield_raw tt
                       "paper/search" SEARCH_FIELDS 2 5
                       [("query", JStr "graph")] 4))
           Done (repeat sample_converted 3));
    reflexivity.
Defined.
